(** * Verification of the Firswood chat API core (src/main.py)

    Shallow embedding of the conversation-phase state machine
    ([detect_phase_transition]), the LLM extraction step
    ([extract_data_with_ai], with the [json.loads] it relies on), the
    readiness gate ([should_submit_brief]), the Slack field formatter
    ([clean]), the [/api/chat] handler ([chat]), the [/api/submit-brief]
    handler ([submit_brief]) and the health check ([health_check]).

    Text is modelled as [String.string]: each [ascii] character stands for
    the Unicode code point U+0000..U+00FF of the same number (Latin-1), so
    [str.lower], [str.strip], [in], [startswith] and slicing are written out
    over that range.  Python exceptions are an error case of a small
    exception monad that also records every call made to the Gemini
    completion gateway, so that "the extractor is invoked" and "the call is
    not retried" are observable. *)

From Stdlib Require Import String Ascii List Bool ZArith Lia DecimalString.
Import ListNotations.
Open Scope string_scope.
Open Scope bool_scope.
Open Scope nat_scope.

(* ------------------------------------------------------------------ *)
(** ** Python string primitives over Latin-1 text *)

Module Py.

(** [str.lower] on a Latin-1 code point: A..Z and U+00C0..U+00DE except
    U+00D7 map to the code point 32 higher; every other one is unchanged. *)
Definition lower_char (c : ascii) : ascii :=
  let n := nat_of_ascii c in
  if ((65 <=? n) && (n <=? 90)) || ((192 <=? n) && (n <=? 222) && negb (n =? 215))
  then ascii_of_nat (n + 32) else c.

Fixpoint lower (s : string) : string :=
  match s with
  | EmptyString => EmptyString
  | String c r => String (lower_char c) (lower r)
  end.

(** [str.isspace] on Latin-1: \t \n \x0b \x0c \r, \x1c..\x1f, space,
    \x85 and \xa0. *)
Definition is_space (c : ascii) : bool :=
  let n := nat_of_ascii c in
  ((9 <=? n) && (n <=? 13)) || ((28 <=? n) && (n <=? 32)) || (n =? 133) || (n =? 160).

Fixpoint lstrip (s : string) : string :=
  match s with
  | EmptyString => EmptyString
  | String c r => if is_space c then lstrip r else s
  end.

Fixpoint rstrip (s : string) : string :=
  match s with
  | EmptyString => EmptyString
  | String c r =>
      match rstrip r with
      | EmptyString => if is_space c then EmptyString else String c EmptyString
      | r' => String c r'
      end
  end.

(** [str.strip()] *)
Definition strip (s : string) : string := rstrip (lstrip s).

(** [s.startswith(p)] *)
Definition startswith (s p : string) : bool := String.prefix p s.

(** [s.endswith(p)] *)
Definition endswith (s p : string) : bool :=
  (String.length p <=? String.length s)%nat
  && String.eqb (substring (String.length s - String.length p) (String.length p) s) p.

(** [s[k:]] and [s[:-k]] for [k >= 0]. *)
Definition drop (k : nat) (s : string) : string := substring k (String.length s - k) s.
Definition drop_last (k : nat) (s : string) : string := substring 0 (String.length s - k) s.

(** [p in s]: substring test. *)
Fixpoint contains (p s : string) : bool :=
  String.prefix p s ||
  match s with
  | EmptyString => false
  | String _ r => contains p r
  end.

(** [any(k in s for k in ks)] *)
Definition any_in (ks : list string) (s : string) : bool :=
  existsb (fun k => contains k s) ks.

End Py.

(* ------------------------------------------------------------------ *)
(** ** Messages and the phase classifier *)

(** [class Message(BaseModel)]; the optional timestamp plays no role. *)
Record Message := mkMessage { role : string; content : string }.

Definition project_keywords : list string :=
  ["i want"; "i need"; "we need"; "build"; "create"; "develop"; "project";
   "yes i have"; "yes we have"].

Definition call_keywords : list string :=
  ["schedule"; "book"; "call"; "meeting"; "talk"; "discuss"; "discovery"; "yes"].

Definition ai_call_words : list string := ["discovery call"; "schedule"; "book"].

(** [next((m.content for m in reversed(history) if m.role == "assistant"), "")] *)
Definition last_ai_msg (history : list Message) : string :=
  match find (fun m => String.eqb (role m) "assistant") (rev history) with
  | Some m => content m
  | None => ""
  end.

(** [detect_phase_transition(message, conversation_history, current_phase)] *)
Definition detect_phase_transition (message : string) (conversation_history : list Message)
    (current_phase : string) : string :=
  let msg_lower := Py.lower message in
  if String.eqb current_phase "phase1" && Py.any_in project_keywords msg_lower
  then "phase2"
  else if String.eqb current_phase "phase2"
          && (0 <? List.length conversation_history)%nat
          && Py.any_in ai_call_words (Py.lower (last_ai_msg conversation_history))
          && Py.any_in call_keywords msg_lower
  then "phase3"
  else current_phase.

(** Position of a phase in DISCOVERY < QUALIFICATION < SCHEDULING. *)
Definition phase_rank (p : string) : nat :=
  if String.eqb p "phase1" then 1
  else if String.eqb p "phase2" then 2
  else if String.eqb p "phase3" then 3
  else 0.

Definition is_phase (p : string) : Prop := p = "phase1" \/ p = "phase2" \/ p = "phase3".

(* ------------------------------------------------------------------ *)
(** ** JSON values and [json.loads]

    [json.loads] (CPython's C scanner, strict mode) is the library routine
    whose failure [extract_data_with_ai] catches.  Numbers are kept as
    Python keeps them: an [int] when the literal has no fraction and no
    exponent, otherwise a [float] written [m * 10^e]; string contents are
    lists of code points, since [\uXXXX] escapes reach beyond Latin-1. *)

Set Warnings "-register-all".

Inductive json :=
| JNull
| JBool (b : bool)
| JInt (z : Z)
| JFloat (m : Z) (e : Z)
| JNaN
| JInf (negative : bool)
| JStr (s : list Z)
| JArr (items : list json)
| JObj (pairs : list (list Z * json)).

Module Json.

Definition code (c : ascii) : Z := Z.of_nat (nat_of_ascii c).

Definition zs_of_string (s : string) : list Z := map code (list_ascii_of_string s).

(** The double-quote character, code 34. *)
Abbreviation QUOTE := (Ascii false true false false false true false false).

(** JSON whitespace: space, \t, \n, \r. *)
Definition is_ws (c : ascii) : bool :=
  let n := nat_of_ascii c in (n =? 32) || (n =? 9) || (n =? 10) || (n =? 13).

Fixpoint skip_ws (s : list ascii) : list ascii :=
  match s with
  | c :: r => if is_ws c then skip_ws r else s
  | [] => []
  end.

Definition is_digit (c : ascii) : bool :=
  let n := nat_of_ascii c in (48 <=? n) && (n <=? 57).

Definition digit_val (c : ascii) : Z := Z.of_nat (nat_of_ascii c - 48).

Fixpoint take_digits (s : list ascii) : list ascii * list ascii :=
  match s with
  | c :: r => if is_digit c then let (d, rest) := take_digits r in (c :: d, rest) else ([], s)
  | [] => ([], [])
  end.

Definition digits_to_Z (ds : list ascii) : Z :=
  fold_left (fun acc d => (acc * 10 + digit_val d)%Z) ds 0%Z.

(** The number regex of the scanner: optional minus, then 0 or a nonzero
    digit followed by digits; an optional fraction (a dot and one or more
    digits); an optional exponent (e or E, an optional sign, one or more
    digits).  A part that does not match is left unconsumed.  An integer
    literal is converted with [int()], which raises [ValueError] beyond
    4300 digits (the default [sys.get_int_max_str_digits()]); since no
    other literal starts with a digit or with [-] and a digit, [None] is
    that error here. *)
Definition scan_number (s : list ascii) : option (json * list ascii) :=
  let '(neg, s1) := match s with
                    | "-"%char :: r => (true, r)
                    | _ => (false, s)
                    end in
  let ip := match s1 with
            | "0"%char :: r => Some (["0"%char], r)
            | c :: _ => if is_digit c then Some (take_digits s1) else None
            | [] => None
            end in
  match ip with
  | None => None
  | Some (idigits, s2) =>
      let '(frac, s3) := match s2 with
                         | "."%char :: r =>
                             match take_digits r with
                             | ([], _) => (None, s2)
                             | (fd, r') => (Some fd, r')
                             end
                         | _ => (None, s2)
                         end in
      let exp_digits r := match take_digits r with
                          | ([], _) => None
                          | (ed, r') => Some (ed, r')
                          end in
      let '(ex, s4) := match s3 with
                       | e :: r =>
                           if (nat_of_ascii e =? 101) || (nat_of_ascii e =? 69) then
                             match r with
                             | "-"%char :: r' =>
                                 match exp_digits r' with
                                 | Some (ed, r'') => (Some (- digits_to_Z ed)%Z, r'')
                                 | None => (None, s3)
                                 end
                             | "+"%char :: r' =>
                                 match exp_digits r' with
                                 | Some (ed, r'') => (Some (digits_to_Z ed), r'')
                                 | None => (None, s3)
                                 end
                             | _ =>
                                 match exp_digits r with
                                 | Some (ed, r'') => (Some (digits_to_Z ed), r'')
                                 | None => (None, s3)
                                 end
                             end
                           else (None, s3)
                       | [] => (None, s3)
                       end in
      let sign (z : Z) := if neg then (- z)%Z else z in
      match frac, ex with
      | None, None =>
          if (4300 <? Z.of_nat (List.length idigits))%Z then None
          else Some (JInt (sign (digits_to_Z idigits)), s4)
      | _, _ =>
          let fd := match frac with Some fd => fd | None => [] end in
          let e := match ex with Some e => e | None => 0%Z end in
          Some (JFloat (sign (digits_to_Z (idigits ++ fd))) (e - Z.of_nat (List.length fd))%Z, s4)
      end
  end.

Definition hex_val (c : ascii) : option Z :=
  let n := nat_of_ascii c in
  if (48 <=? n) && (n <=? 57) then Some (Z.of_nat (n - 48))
  else if (97 <=? n) && (n <=? 102) then Some (Z.of_nat (n - 87))
  else if (65 <=? n) && (n <=? 70) then Some (Z.of_nat (n - 55))
  else None.

Definition hex4 (a b c d : ascii) : option Z :=
  match hex_val a, hex_val b, hex_val c, hex_val d with
  | Some x1, Some x2, Some x3, Some x4 => Some (x1 * 4096 + x2 * 256 + x3 * 16 + x4)%Z
  | _, _, _, _ => None
  end.

(** The one-letter escapes after a backslash. *)
Definition simple_escape (e : ascii) : option Z :=
  match nat_of_ascii e with
  | 34 => Some 34%Z | 92 => Some 92%Z | 47 => Some 47%Z | 98 => Some 8%Z
  | 102 => Some 12%Z | 110 => Some 10%Z | 114 => Some 13%Z | 116 => Some 9%Z
  | _ => None
  end.

(** [scanstring] (strict): the text after the opening quote, up to and
    including the closing quote.  Control characters are refused; a high
    surrogate escape followed by a low surrogate escape is joined. *)
Fixpoint scan_string (s : list ascii) (acc : list Z) {struct s} : option (list Z * list ascii) :=
  match s with
  | [] => None
  | c :: r =>
      if (code c =? 34)%Z then Some (rev acc, r)
      else if (code c =? 92)%Z then
        match r with
        | [] => None
        | e :: r' =>
            if (code e =? 117)%Z then
              match r' with
              | h1 :: h2 :: h3 :: h4 :: r'' =>
                  match hex4 h1 h2 h3 h4 with
                  | None => None
                  | Some u =>
                      if ((55296 <=? u) && (u <=? 56319))%Z then
                        match r'' with
                        | b :: v :: g1 :: g2 :: g3 :: g4 :: r3 =>
                            if ((code b =? 92) && (code v =? 117))%Z then
                              match hex4 g1 g2 g3 g4 with
                              | None => None
                              | Some u2 =>
                                  if ((56320 <=? u2) && (u2 <=? 57343))%Z
                                  then scan_string r3
                                         (65536 + (u - 55296) * 1024 + (u2 - 56320) :: acc)%Z
                                  else scan_string r'' (u :: acc)
                              end
                            else scan_string r'' (u :: acc)
                        | _ => scan_string r'' (u :: acc)
                        end
                      else scan_string r'' (u :: acc)
                  end
              | _ => None
              end
            else match simple_escape e with
                 | Some z => scan_string r' (z :: acc)
                 | None => None
                 end
        end
      else if (code c <=? 31)%Z then None
      else scan_string r (code c :: acc)
  end.

(** [scan_once] and the array and object loops of the scanner; [fuel]
    bounds the number of nested calls.  Each [{] and [[] enters a C-level
    recursive call ([_Py_EnterRecursiveCall]); [depth] is the budget left,
    and a container opened with none left raises [RecursionError]. *)
Fixpoint scan_value (fuel depth : nat) (s : list ascii) {struct fuel} : option (json * list ascii) :=
  match fuel with
  | O => None
  | S f =>
      match s with
      | QUOTE :: r =>
          match scan_string r [] with
          | Some (str, r') => Some (JStr str, r')
          | None => None
          end
      | "{" :: r =>
          match depth with
          | O => None
          | S d =>
              match skip_ws r with
              | QUOTE :: r' => scan_members f d r' []
              | "}" :: r' => Some (JObj [], r')
              | _ => None
              end
          end
      | "[" :: r =>
          match depth with
          | O => None
          | S d =>
              match skip_ws r with
              | "]" :: r' => Some (JArr [], r')
              | r' => scan_elements f d r' []
              end
          end
      | "n" :: "u" :: "l" :: "l" :: r => Some (JNull, r)
      | "t" :: "r" :: "u" :: "e" :: r => Some (JBool true, r)
      | "f" :: "a" :: "l" :: "s" :: "e" :: r => Some (JBool false, r)
      | _ =>
          match scan_number s with
          | Some res => Some res
          | None =>
              match s with
              | "N" :: "a" :: "N" :: r => Some (JNaN, r)
              | "I" :: "n" :: "f" :: "i" :: "n" :: "i" :: "t" :: "y" :: r => Some (JInf false, r)
              | "-" :: "I" :: "n" :: "f" :: "i" :: "n" :: "i" :: "t" :: "y" :: r => Some (JInf true, r)
              | _ => None
              end
          end
      end%char
  end
(** array items: a value, then [,] or [\]] *)
with scan_elements (fuel depth : nat) (s : list ascii) (acc : list json) {struct fuel}
    : option (json * list ascii) :=
  match fuel with
  | O => None
  | S f =>
      match scan_value f depth s with
      | None => None
      | Some (v, r) =>
          match skip_ws r with
          | "]" :: r' => Some (JArr (rev (v :: acc)), r')
          | "," :: r' => scan_elements f depth (skip_ws r') (v :: acc)
          | _ => None
          end%char
      end
  end
(** object members, after the opening quote of a key *)
with scan_members (fuel depth : nat) (s : list ascii) (acc : list (list Z * json)) {struct fuel}
    : option (json * list ascii) :=
  match fuel with
  | O => None
  | S f =>
      match scan_string s [] with
      | None => None
      | Some (k, r) =>
          match skip_ws r with
          | ":" :: r1 =>
              match scan_value f depth (skip_ws r1) with
              | None => None
              | Some (v, r2) =>
                  match skip_ws r2 with
                  | "}" :: r3 => Some (JObj (rev ((k, v) :: acc)), r3)
                  | "," :: r3 =>
                      match skip_ws r3 with
                      | QUOTE :: r4 => scan_members f depth r4 ((k, v) :: acc)
                      | _ => None
                      end
                  | _ => None
                  end
              end
          | _ => None
          end%char
      end
  end.

(** [json.loads(t)] with [max_depth] recursive calls left to the
    scanner: [None] is the exception it raises ([JSONDecodeError],
    [ValueError] or [RecursionError]). *)
Definition loads (max_depth : nat) (t : string) : option json :=
  let s := list_ascii_of_string t in
  match scan_value (2 * List.length s + 2) max_depth (skip_ws s) with
  | Some (v, r) => match skip_ws r with [] => Some v | _ => None end
  | None => None
  end.

(** [d.get(k)] on a dict built from the parsed pairs: the last pair with
    key [k] wins. *)
Definition dict_get (pairs : list (list Z * json)) (k : string) : option json :=
  fold_left (fun acc '(k', v) => if list_eq_dec Z.eq_dec k' (zs_of_string k) then Some v else acc)
    pairs None.

(** Python truthiness of a parsed value.  A float literal is false when it
    rounds to zero in binary64, i.e. when [|m| * 10^e <= 2^-1075]. *)
Definition truthy (v : json) : bool :=
  match v with
  | JNull => false
  | JBool b => b
  | JInt z => negb (z =? 0)%Z
  | JFloat m e =>
      negb (m =? 0)%Z && ((0 <=? e)%Z || (10 ^ (- e) <? Z.abs m * 2 ^ 1075)%Z)
  | JNaN | JInf _ => true
  | JStr s => negb (match s with [] => true | _ => false end)
  | JArr l => negb (match l with [] => true | _ => false end)
  | JObj l => negb (match l with [] => true | _ => false end)
  end.

Definition truthy_opt (v : option json) : bool :=
  match v with Some v => truthy v | None => false end.

(** [type(v).__name__] of a parsed value. *)
Definition type_name (v : json) : string :=
  match v with
  | JNull => "NoneType"
  | JBool _ => "bool"
  | JInt _ => "int"
  | JFloat _ _ | JNaN | JInf _ => "float"
  | JStr _ => "str"
  | JArr _ => "list"
  | JObj _ => "dict"
  end.

End Json.

(* ------------------------------------------------------------------ *)
(** ** Gemini gateway calls and the exception monad *)

(** One [client.models.generate_content(...)] call: model name, system
    instruction, temperature (as written in the source), whether
    [response_mime_type="application/json"] is requested, and the
    [contents] as (role, text) pairs. *)
Record Call := mkCall {
  call_model : string;
  call_system : option string;
  call_temperature : string;
  call_json : bool;
  call_contents : list (string * string) }.

(** What a call does: it raises (network, quota, API error; the message is
    [str(e)]) or returns a response whose [.text] may be [None]. *)
Inductive GwResult :=
| GwRaise (err : string)
| GwReturn (text : option string).

(** Process configuration and the outside world seen by one request. *)
Record Env := mkEnv {
  google_api_key : option string;  (** [GOOGLE_API_KEY] *)
  gateway : Call -> GwResult;
  now_iso : string;                (** [datetime.now().isoformat()] *)
  now_ts : string;                 (** [str(int(datetime.now().timestamp()))] *)
  json_depth : nat;
    (** the nesting depth of arrays and objects that [json.loads] decodes,
        and the extractor prints, without [RecursionError]: the interpreter's
        recursion budget at that point *)
  validation_detail : string -> string -> string }.
    (** [str(e)] of the pydantic [ValidationError] raised when a model
        (first argument) gets [None] for a required [str] field (second
        argument); its wording depends on the pydantic version *)

(** A computation that may raise a Python exception (carrying [str(e)]) and
    appends every gateway call it makes to a log. *)
Definition M (A : Type) : Type := list Call -> (string + A) * list Call.

Definition ret {A} (a : A) : M A := fun log => (inr a, log).
Definition raise {A} (e : string) : M A := fun log => (inl e, log).
Definition bind {A B} (m : M A) (k : A -> M B) : M B :=
  fun log => match m log with
             | (inl e, log') => (inl e, log')
             | (inr a, log') => k a log'
             end.
(** [try: m except Exception as e: h(str(e))] *)
Definition catch {A} (m : M A) (h : string -> M A) : M A :=
  fun log => match m log with
             | (inl e, log') => h e log'
             | (inr a, log') => (inr a, log')
             end.

Notation "x <- m ;; k" := (bind m (fun x => k)) (at level 61, m at next level, right associativity).

Abbreviation NL := (String (ascii_of_nat 10) EmptyString).

(** The literal prompt texts are configuration; they are kept by name. *)
Definition PHASE_1_SYSTEM : string := "PHASE_1_SYSTEM".
Definition PHASE_2_SYSTEM : string := "PHASE_2_SYSTEM".
Definition PHASE_3_SYSTEM : string := "PHASE_3_SYSTEM".
Definition DATA_EXTRACTION_PROMPT : string := "DATA_EXTRACTION_PROMPT".

Section Handlers.

Variable env : Env.

(** [client.models.generate_content]: logged, then raises or returns
    [response.text]. *)
Definition generate (c : Call) : M (option string) :=
  fun log => match gateway env c with
             | GwRaise e => (inl e, (log ++ [c])%list)
             | GwReturn t => (inr t, (log ++ [c])%list)
             end.

(** [get_gemini_client()] *)
Definition get_gemini_client : M unit :=
  match google_api_key env with
  | None | Some EmptyString => raise "GOOGLE_API_KEY not found"
  | Some _ => ret tt
  end.

(** [response.text.strip()] and the rest of the attribute accesses on a
    [None] text raise [AttributeError]. *)
Definition require_text (t : option string) : M string :=
  match t with
  | Some s => ret s
  | None => raise "'NoneType' object has no attribute 'strip'"
  end.

Definition all_null_record : json :=
  JObj (map (fun k => (Json.zs_of_string k, JNull))
            ["fullName"; "workEmail"; "company"; "phone"; "projectType"; "timeline"; "goal"]).

Definition conversation_text (history : list Message) : string :=
  fold_left (fun acc msg =>
               acc ++ (if String.eqb (role msg) "user" then "User" else "AI")
                   ++ ": " ++ content msg ++ NL)
            history "".

Definition extraction_call (history : list Message) : Call :=
  mkCall "gemini-2.5-flash" None "0.1" true
         [("user", DATA_EXTRACTION_PROMPT ++ NL ++ conversation_text history)].

(** The code-fence stripping applied to the returned text before parsing. *)
Definition strip_fences (text : string) : string :=
  let t1 := Py.strip text in
  let t2 := if Py.startswith t1 "```json" then Py.drop 7 t1 else t1 in
  let t3 := if Py.startswith t2 "```" then Py.drop 3 t2 else t2 in
  let t4 := if Py.endswith t3 "```" then Py.drop_last 3 t3 else t3 in
  Py.strip t4.

(** [async def extract_data_with_ai(conversation_history)] *)
Definition extract_data_with_ai (conversation_history : list Message) : M json :=
  catch
    (_ <- get_gemini_client ;;
     r <- generate (extraction_call conversation_history) ;;
     text <- require_text r ;;
     match Json.loads (json_depth env) (strip_fences text) with
     | Some extracted_data => ret extracted_data
     | None => raise "JSONDecodeError"
     end)
    (fun _ => ret all_null_record).

End Handlers.

(* ------------------------------------------------------------------ *)
(** ** Readiness gate *)

Definition decline_keywords : list string :=
  ["no"; "not now"; "maybe later"; "not ready"; "not yet"; "later"].

(** [bool(extracted_data.get('workEmail'))] *)
Definition has_email (d : list (list Z * json)) : bool :=
  Json.truthy_opt (Json.dict_get d "workEmail").

(** [bool(extracted_data.get('projectType') or extracted_data.get('goal'))] *)
Definition has_project (d : list (list Z * json)) : bool :=
  Json.truthy_opt (Json.dict_get d "projectType") || Json.truthy_opt (Json.dict_get d "goal").

(** The decline test: [any(k in user_message.lower().strip() for k in decline_keywords)]. *)
Definition declined (user_message : string) : bool :=
  Py.any_in decline_keywords (Py.strip (Py.lower user_message)).

(** [should_submit_brief(extracted_data, old_phase, new_phase, user_message)];
    [None] is the [AttributeError] raised by [.get] when the extracted value
    is not a dict. *)
Definition should_submit_brief (extracted_data : json) (old_phase new_phase user_message : string)
    : option bool :=
  match extracted_data with
  | JObj d =>
      let has_email := has_email d in
      let has_project := has_project d in
      if String.eqb old_phase "phase2" && String.eqb new_phase "phase3" then
        Some (has_email && has_project)
      else if String.eqb old_phase "phase2" && String.eqb new_phase "phase2"
              && declined user_message then
        Some (has_email && has_project)
      else Some false
  | _ => None
  end.

(* ------------------------------------------------------------------ *)
(** ** The Slack formatter [clean] (inside [submit_brief]) on a [str]
    argument *)

Fixpoint html_escape (s : string) : string :=
  match s with
  | EmptyString => EmptyString
  | String c r =>
      let n := nat_of_ascii c in
      (if n =? 38 then "&amp;" else if n =? 60 then "&lt;" else if n =? 62 then "&gt;"
       else String c EmptyString) ++ html_escape r
  end.

(** [clean(text, max_len)] for [text : str].  The three [replace] calls
    are one pass here: the replacement texts of [<] and [>] contain no [&],
    so replacing [&] first and then [<] and [>] is the same. *)
Definition clean (text : string) (max_len : nat) : string :=
  if String.eqb text "" || existsb (String.eqb (Py.lower text)) ["n/a"; "null"; "none"] then "N/A"
  else
    let t := html_escape (Py.strip text) in
    if max_len <? String.length t then substring 0 max_len t ++ "..." else t.

(* ------------------------------------------------------------------ *)
(** ** The [/api/chat] handler *)

(** [class ChatRequest(BaseModel)] *)
Record ChatRequest := mkChatRequest {
  message : string;
  conversation_history : option (list Message);
  conversation_id : option string;
  conversation_phase : option string }.

(** [class ChatResponse(BaseModel)] *)
Record ChatResponse := mkChatResponse {
  resp_response : string;
  resp_conversation_id : string;
  resp_timestamp : string;
  resp_conversation_phase : string;
  resp_extracted_data : option json;
  resp_should_submit_brief : bool }.

(** The HTTP outcome: the response model, or the [HTTPException] raised. *)
Inductive HttpResult :=
| Http200 (r : ChatResponse)
| HttpError (status_code : Z) (detail : string).

Definition CHAT_MODEL : string := "gemini-2.0-flash-exp".

Definition system_prompt_for (current_phase : string) : string :=
  if String.eqb current_phase "phase1" then PHASE_1_SYSTEM
  else if String.eqb current_phase "phase2" then PHASE_2_SYSTEM
  else PHASE_3_SYSTEM.

Definition chat_contents (history : list Message) (msg : string) : list (string * string) :=
  (map (fun m => (if String.eqb (role m) "user" then "user" else "model", content m)) history
   ++ [("user", msg)])%list.

Section Chat.

Variable env : Env.

(** [response.text] passed to the [str] field [field] of the pydantic
    model [model]: a [None] text fails validation. *)
Definition require_field (model field : string) (t : option string) : M string :=
  match t with
  | Some s => ret s
  | None => raise (validation_detail env model field)
  end.

(** The body of [chat] inside its [try]. *)
Definition chat_body (request : ChatRequest) : M ChatResponse :=
  let current_phase := match conversation_phase request with
                       | None | Some EmptyString => "phase1"
                       | Some p => p
                       end in
  match conversation_history request with
  | None => raise "object of type 'NoneType' has no len()"
  | Some history =>
      let old_phase := current_phase in
      let new_phase := detect_phase_transition (message request) history current_phase in
      let current_phase := if String.eqb new_phase old_phase then current_phase else new_phase in
      let system_prompt := system_prompt_for current_phase in
      _ <- get_gemini_client env ;;
      response <- generate env (mkCall CHAT_MODEL (Some system_prompt) "0.7" false
                                       (chat_contents history (message request))) ;;
      let conversation_id := match conversation_id request with
                             | None | Some EmptyString => "conv_" ++ now_ts env
                             | Some c => c
                             end in
      if String.eqb current_phase "phase2" || String.eqb new_phase "phase3" then
        text <- require_field "Message" "content" response ;;
        let temp_history := (history ++ [mkMessage "user" (message request);
                                         mkMessage "assistant" text])%list in
        extracted_data <- extract_data_with_ai env temp_history ;;
        should_submit <- match should_submit_brief extracted_data old_phase new_phase
                                 (message request) with
                         | Some b => ret b
                         | None => raise ("'" ++ Json.type_name extracted_data
                                          ++ "' object has no attribute 'get'")
                         end ;;
        ret (mkChatResponse text conversation_id (now_iso env) current_phase
                            (Some extracted_data) should_submit)
      else
        text <- require_field "ChatResponse" "response" response ;;
        ret (mkChatResponse text conversation_id (now_iso env) current_phase None false)
  end.

(** [@app.post("/api/chat") async def chat(request)]: any exception becomes
    [HTTPException(status_code=500, detail=str(e))]. *)
Definition chat (request : ChatRequest) (log : list Call) : HttpResult * list Call :=
  match chat_body request log with
  | (inr r, log') => (Http200 r, log')
  | (inl e, log') => (HttpError 500 e, log')
  end.

End Chat.

(** The gate of the extraction branch of [chat]. *)
Definition extraction_gate (old_phase new_phase : string) : bool :=
  let current_phase := if String.eqb new_phase old_phase then old_phase else new_phase in
  String.eqb current_phase "phase2" || String.eqb new_phase "phase3".

(** Sub-expressions of [chat]: [request.conversation_phase or "phase1"],
    the conversation id it answers with, and its Gemini call in a phase. *)
Definition request_phase (request : ChatRequest) : string :=
  match conversation_phase request with
  | None | Some EmptyString => "phase1"
  | Some p => p
  end.

Definition request_conversation_id (env : Env) (request : ChatRequest) : string :=
  match conversation_id request with
  | None | Some EmptyString => "conv_" ++ now_ts env
  | Some c => c
  end.

Definition chat_call (history : list Message) (msg phase : string) : Call :=
  mkCall CHAT_MODEL (Some (system_prompt_for phase)) "0.7" false (chat_contents history msg).

(** A call is an extraction call when it asks for [gemini-2.5-flash]. *)
Definition is_extraction_call (c : Call) : bool := String.eqb (call_model c) "gemini-2.5-flash".

(** Phase reached after a sequence of turns, each classified with
    [detect_phase_transition] from the phase returned by the previous one. *)
Definition run_turns (p : string) (turns : list (string * list Message)) : string :=
  fold_left (fun p '(msg, h) => detect_phase_transition msg h p) turns p.

(** Builders for the concrete records used below. *)
Definition jstr (s : string) : json := JStr (Json.zs_of_string s).
Definition field (k : string) (v : json) : list Z * json := (Json.zs_of_string k, v).

(** ** The [/api/submit-brief] handler

    [brief_data] is read as a dict whose values are [str] or [None] (the
    LeadRecord shape the chat endpoint returns); the keys of a dict are
    distinct, so its entry for a key is the first pair carrying it. *)

(** [brief.get(k, 'N/A')]: [None] is a JSON null. *)
Definition brief_get (brief : list (string * option string)) (k : string) : option string :=
  match find (fun '(k', _) => String.eqb k' k) brief with
  | Some (_, v) => v
  | None => Some "N/A"
  end.

(** [clean(text, max_len)] on a [str] or [None] argument ([None] is falsy). *)
Definition clean_opt (text : option string) (max_len : nat) : string :=
  match text with
  | None => "N/A"
  | Some s => clean s max_len
  end.

(** [class BriefSubmission(BaseModel)] *)
Record BriefSubmission := mkBriefSubmission {
  brief_data : list (string * option string);
  brief_conversation_id : string;
  brief_timestamp : string;
  brief_url : option string }.

(** [requests.post(...)]: raises, or answers with a status code. *)
Inductive PostResult :=
| PostRaise (err : string)
| PostStatus (status_code : Z).

Record SlackEnv := mkSlackEnv {
  slack_webhook_url : option string;              (** [SLACK_WEBHOOK_URL] *)
  slack_post : string -> list Z -> PostResult;    (** POST of [{"text": t}], timeout 10 s *)
  iso_minutes : string -> option string;
    (** [datetime.fromisoformat(ts).strftime('%Y-%m-%d %H:%M')]; [None] = raises *)
  now_minutes : string }.                         (** [datetime.now().strftime(...)] *)

Inductive SubmitResult :=
| SubmitOk (conversation_id : string)   (** [{"success": True, "message": "Brief submitted", ...}] *)
| SubmitError (status_code : Z) (detail : string).

(** Text as Unicode code points, for the Slack message, whose template
    holds emoji beyond Latin-1. *)
Definition cps (s : string) : list Z := Json.zs_of_string s.
Definition lf : list Z := [10%Z].

(** The f-string of [slack_message["text"]]. *)
Definition slack_text (full_name work_email company phone project_type timeline goal
                       formatted_time conversation_id : string) : list Z :=
  ([127881%Z] ++ cps " *NEW LEAD!*" ++ lf ++ lf
   ++ [128100%Z] ++ cps " *Name:* " ++ cps full_name ++ lf
   ++ [128231%Z] ++ cps " *Email:* " ++ cps work_email ++ lf
   ++ [127970%Z] ++ cps " *Company:* " ++ cps company ++ lf
   ++ [128222%Z] ++ cps " *Phone:* " ++ cps phone ++ lf
   ++ [128188%Z] ++ cps " *Project:* " ++ cps project_type ++ lf
   ++ [128197%Z] ++ cps " *Timeline:* " ++ cps timeline ++ lf ++ lf
   ++ [127919%Z] ++ cps " *Goal:*" ++ lf ++ cps goal ++ lf ++ lf
   ++ [9200%Z] ++ cps " " ++ cps formatted_time ++ lf
   ++ [127380%Z] ++ cps " " ++ cps conversation_id)%list.

Definition string_of_Z (z : Z) : string := NilZero.string_of_int (Z.to_int z).

(** [async def submit_brief(request)]: the result and the POSTs made (URL,
    text).  A non-200 answer raises [HTTPException(500, f"Slack: {code}")]
    inside the [try]; the handler re-raises it with [str(e)], which
    Starlette renders as ["500: Slack: <code>"]. *)
Definition submit_brief (senv : SlackEnv) (request : BriefSubmission)
    : SubmitResult * list (string * list Z) :=
  match slack_webhook_url senv with
  | None | Some EmptyString => (SubmitError 500 "Slack not configured", [])
  | Some url =>
      let brief := brief_data request in
      let full_name := clean_opt (brief_get brief "fullName") 100 in
      let work_email := clean_opt (brief_get brief "workEmail") 100 in
      let company := clean_opt (brief_get brief "company") 100 in
      let phone := clean_opt (brief_get brief "phone") 50 in
      let project_type := clean_opt (brief_get brief "projectType") 100 in
      let timeline := clean_opt (brief_get brief "timeline") 50 in
      let goal := clean_opt (brief_get brief "goal") 400 in
      let formatted_time := match iso_minutes senv (brief_timestamp request) with
                            | Some t => t
                            | None => now_minutes senv
                            end in
      let text := slack_text full_name work_email company phone project_type timeline goal
                             formatted_time (brief_conversation_id request) in
      match slack_post senv url text with
      | PostRaise e => (SubmitError 500 e, [(url, text)])
      | PostStatus code =>
          if (code =? 200)%Z then (SubmitOk (brief_conversation_id request), [(url, text)])
          else (SubmitError 500 ("500: Slack: " ++ string_of_Z code), [(url, text)])
      end
  end.

(** [async def health_check()] *)
Record Health := mkHealth {
  health_status : string;
  health_timestamp : string;
  health_google_api : bool;
  health_slack : bool }.

(** [bool(x)] of an optional environment string. *)
Definition env_set (v : option string) : bool :=
  match v with None | Some EmptyString => false | Some _ => true end.

Definition health_check (env : Env) (senv : SlackEnv) : Health :=
  mkHealth "healthy" (now_iso env) (env_set (google_api_key env)) (env_set (slack_webhook_url senv)).

(** ** Concrete inputs for the examples *)

Definition dq : string := String Json.QUOTE EmptyString.

(** The JSON text of an object whose values are all strings. *)
Definition json_text (pairs : list (string * string)) : string :=
  "{" ++ String.concat ", " (map (fun '(k, v) => dq ++ k ++ dq ++ ": " ++ dq ++ v ++ dq) pairs) ++ "}".

Definition lead_pairs : list (string * string) :=
  [("fullName", "Hamid Abbas"); ("workEmail", "hamid@emebron.com"); ("company", "Emebron");
   ("goal", "Automate customer support enquiries")].

Definition lead_dict : list (list Z * json) := map (fun '(k, v) => field k (jstr v)) lead_pairs.

(** A process with a key whose gateway answers extraction calls with
    [extraction] and chat calls with [reply]. *)
Definition test_env (extraction reply : GwResult) : Env :=
  mkEnv (Some "test-key")
        (fun c => if is_extraction_call c then extraction else reply)
        "2026-10-18T12:00:00" "1792324800" 1000
        (fun model field => "1 validation error for " ++ model ++ NL ++ field).

Definition history5 : list Message :=
  [mkMessage "user" "Hi";
   mkMessage "assistant" "Hello! What are you working on?";
   mkMessage "user" "We need a support bot for our shop";
   mkMessage "assistant" "Great. What is your work email?";
   mkMessage "user" "hamid@emebron.com"].

Definition history3 : list Message := firstn 3 history5.

(** Readiness Policy A as the spec words it, for comparison with the code:
    a field is present when it is non-null and not a sentinel "N/A" or
    "none" (any case); turn count at least 6. *)
Definition spec_present (v : option json) : bool :=
  match v with
  | Some (JStr s) =>
      negb (match s with [] => true | _ => false end)
      && negb (existsb (fun t => if list_eq_dec Z.eq_dec (map (fun z => if ((65 <=? z) && (z <=? 90))%Z then (z + 32)%Z else z) s) (Json.zs_of_string t) then true else false) ["n/a"; "none"])
  | Some v => Json.truthy v
  | None => false
  end.

Definition spec_policy_a_ready (d : list (list Z * json)) (turn_count : nat) : bool :=
  let p k := spec_present (Json.dict_get d k) in
  p "workEmail" && (p "projectType" || p "goal") && p "fullName"
  && (p "company" || p "timeline") && (6 <=? turn_count).

(* ================================================================== *)
(** An extraction reply that is valid JSON but no record. *)
Definition env_list_reply : Env := test_env (GwReturn (Some "[]")) (GwReturn (Some "Sounds great!")).

(** A Slack endpoint that accepts every POST. *)
Definition slack_ok : SlackEnv :=
  mkSlackEnv (Some "https://hooks.slack.test/T0/B0") (fun _ _ => PostStatus 200)
             (fun _ => Some "2026-10-18 12:00") "2026-10-18 12:05".

(** A brief whose name tries a Slack mention and whose goal is null. *)
Definition brief_injection : BriefSubmission :=
  mkBriefSubmission [("fullName", Some "<!channel> Ada"); ("goal", None)]
                    "conv_1792324800" "2026-10-18T12:00:00" None.

(** A process started without [GOOGLE_API_KEY]. *)
Definition env_no_key : Env :=
  mkEnv None (fun _ => GwReturn None) "2026-10-18T12:00:00" "1792324800" 1000
        (fun model field => "1 validation error for " ++ model ++ NL ++ field).

Definition req_phase2 : ChatRequest :=
  mkChatRequest "tell me more" (Some history5) None (Some "phase2").

(** A phase name in the wrong case. *)
Definition req_unknown_phase : ChatRequest :=
  mkChatRequest "yes, let's book a call" (Some history5) (Some "conv_7") (Some "Phase2").

(** The response model of an HTTP 200 outcome. *)
Definition http_response (x : HttpResult) : ChatResponse :=
  match x with
  | Http200 r => r
  | HttpError _ _ => mkChatResponse "" "" "" "" None false
  end.

(** * Lemmas *)

Lemma detect_step : forall p msg h,
  is_phase p ->
  let q := detect_phase_transition msg h p in
  (q = p \/ (p = "phase1" /\ q = "phase2") \/ (p = "phase2" /\ q = "phase3")).
Proof.
  intros p msg h Hp q; subst q; unfold detect_phase_transition.
  destruct Hp as [-> | [-> | ->]].
  - destruct (Py.any_in project_keywords (Py.lower msg));
      [right; left; split; reflexivity | left; reflexivity].
  - destruct (0 <? List.length h), (Py.any_in ai_call_words (Py.lower (last_ai_msg h))),
      (Py.any_in call_keywords (Py.lower msg));
      solve [left; reflexivity | right; right; split; reflexivity].
  - left; reflexivity.
Qed.

Lemma detect_is_phase : forall p msg h,
  is_phase p -> is_phase (detect_phase_transition msg h p).
Proof.
  intros p msg h Hp.
  destruct (detect_step p msg h Hp) as [-> | [[_ ->] | [_ ->]]]; unfold is_phase; auto.
Qed.

Lemma detect_rank : forall p msg h,
  is_phase p -> phase_rank p <= phase_rank (detect_phase_transition msg h p) <= S (phase_rank p).
Proof.
  intros p msg h Hp.
  destruct (detect_step p msg h Hp) as [-> | [[-> ->] | [-> ->]]]; [lia | unfold phase_rank; simpl; lia | unfold phase_rank; simpl; lia].
Qed.

Lemma run_turns_rank : forall turns p,
  is_phase p -> is_phase (run_turns p turns) /\ phase_rank p <= phase_rank (run_turns p turns).
Proof.
  induction turns as [|[msg h] turns IH]; intros p Hp; simpl; [split; auto|].
  destruct (IH _ (detect_is_phase p msg h Hp)) as [H1 H2].
  split; [exact H1|].
  pose proof (detect_rank p msg h Hp); unfold run_turns in *; lia.
Qed.

(* ================================================================== *)
(** * Claims *)

(** C1: for a phase in {phase1, phase2, phase3}, [detect_phase_transition]
    returns a phase of that set whose rank is at least the input's and at
    most one more; phase3 is returned unchanged; the result is the input
    phase, phase1 -> phase2 or phase2 -> phase3; and along any sequence of
    turns the phase never decreases. *)
Theorem detect_phase_transition_monotone : forall p msg h,
  is_phase p ->
  let q := detect_phase_transition msg h p in
  is_phase q
  /\ phase_rank p <= phase_rank q <= S (phase_rank p)
  /\ (p = "phase3" -> q = "phase3")
  /\ (q = p \/ (p = "phase1" /\ q = "phase2") \/ (p = "phase2" /\ q = "phase3"))
  /\ (forall turns, phase_rank p <= phase_rank (run_turns p turns)).
Proof.
  intros p msg h Hp q.
  split; [apply detect_is_phase; exact Hp|].
  split; [apply detect_rank; exact Hp|].
  split; [intros ->; reflexivity|].
  split; [apply detect_step; exact Hp|].
  intros turns; apply run_turns_rank; exact Hp.
Qed.

Lemma detect_phase_transition_monotone_witness :
  is_phase "phase2" /\
  (let q := detect_phase_transition "yes" [mkMessage "assistant" "Shall we book a call?"] "phase2" in
   is_phase q
   /\ phase_rank "phase2" <= phase_rank q <= S (phase_rank "phase2")
   /\ ("phase2" = "phase3" -> q = "phase3")
   /\ (q = "phase2" \/ ("phase2" = "phase1" /\ q = "phase2") \/ ("phase2" = "phase2" /\ q = "phase3"))
   /\ (forall turns, phase_rank "phase2" <= phase_rank (run_turns "phase2" turns))).
Proof.
  split; [unfold is_phase; right; left; reflexivity|].
  apply (detect_phase_transition_monotone "phase2"); unfold is_phase; right; left; reflexivity.
Defined.

(** C5: from phase2, [detect_phase_transition] returns phase3 exactly when
    the last assistant turn of the history contains one of "discovery call",
    "schedule", "book" and the lowercased message contains one of the call
    keywords; otherwise phase2.  With the history ending in "Would you like
    to schedule a discovery call?", "yes" gives phase3 and "tell me more"
    gives phase2. *)
Theorem detect_phase2_to_phase3 : forall msg h,
  detect_phase_transition msg h "phase2"
  = (if Py.any_in ai_call_words (Py.lower (last_ai_msg h)) && Py.any_in call_keywords (Py.lower msg)
     then "phase3" else "phase2")
  /\ detect_phase_transition "yes"
       [mkMessage "assistant" "Would you like to schedule a discovery call?"] "phase2" = "phase3"
  /\ detect_phase_transition "tell me more"
       [mkMessage "assistant" "Would you like to schedule a discovery call?"] "phase2" = "phase2".
Proof.
  intros msg h; split; [|split; reflexivity].
  unfold detect_phase_transition; destruct h as [|m h].
  - reflexivity.
  - destruct (Py.any_in ai_call_words (Py.lower (last_ai_msg (m :: h)))),
      (Py.any_in call_keywords (Py.lower msg)); reflexivity.
Qed.

(** C6: from phase1, [detect_phase_transition] returns phase2 exactly when
    the lowercased message contains one of the project keywords, and phase1
    otherwise, whatever the history; "I want to build a chatbot" gives
    phase2 and "what is RAG?" gives phase1. *)
Theorem detect_phase1_to_phase2 : forall msg h,
  detect_phase_transition msg h "phase1"
  = (if Py.any_in project_keywords (Py.lower msg) then "phase2" else "phase1")
  /\ detect_phase_transition "I want to build a chatbot" [] "phase1" = "phase2"
  /\ detect_phase_transition "what is RAG?" [] "phase1" = "phase1".
Proof.
  intros msg h; split; [|split; reflexivity].
  unfold detect_phase_transition.
  destruct (Py.any_in project_keywords (Py.lower msg)); reflexivity.
Qed.

(** ** Substrings survive [str.strip] *)

Section StripContains.

Variable p : string.
Hypothesis p_nonempty : p <> EmptyString.
Hypothesis p_first : forall a p', p = String a p' -> Py.is_space a = false.

Lemma contains_lstrip : forall s, Py.contains p s = true -> Py.contains p (Py.lstrip s) = true.
Proof.
  induction s as [|c r IH]; intros H; [exact H|].
  simpl. case_eq (Py.is_space c); intros Hc; [|exact H].
  apply IH. simpl in H. apply orb_true_iff in H as [H|H]; [|exact H].
  destruct p as [|a p'] eqn:Ep; [congruence|].
  simpl in H. destruct (ascii_dec a c) as [->|]; [|discriminate].
  rewrite (p_first c p' eq_refl) in Hc; discriminate.
Qed.

End StripContains.

Lemma prefix_rstrip : forall p s,
  p <> EmptyString ->
  (forall q a, p = (q ++ String a EmptyString)%string -> Py.is_space a = false) ->
  String.prefix p s = true -> String.prefix p (Py.rstrip s) = true.
Proof.
  induction p as [|a p' IH]; intros s Hne Hlast H; [congruence|].
  destruct s as [|c r]; [discriminate|].
  simpl in H. destruct (ascii_dec a c) as [<-|]; [|discriminate].
  simpl. destruct p' as [|b p''].
  - assert (Ha : Py.is_space a = false) by (apply (Hlast EmptyString a); reflexivity).
    destruct (Py.rstrip r); [rewrite Ha|]; simpl; destruct (ascii_dec a a); congruence.
  - assert (Hr : String.prefix (String b p'') (Py.rstrip r) = true).
    { apply IH; [discriminate| |exact H].
      intros q a' Hq. apply (Hlast (String a q) a'). rewrite Hq. reflexivity. }
    destruct (Py.rstrip r) as [|c' r'] eqn:Er; [discriminate|].
    simpl. destruct (ascii_dec a a); [exact Hr|congruence].
Qed.

Lemma prefix_contains : forall p s, String.prefix p s = true -> Py.contains p s = true.
Proof. intros p [|c s] H; cbn [Py.contains]; rewrite H; reflexivity. Qed.

Lemma contains_rstrip : forall p s,
  p <> EmptyString ->
  (forall q a, p = (q ++ String a EmptyString)%string -> Py.is_space a = false) ->
  Py.contains p s = true -> Py.contains p (Py.rstrip s) = true.
Proof.
  intros p s Hne Hlast; induction s as [|c r IH]; intros H; [exact H|].
  cbn [Py.contains] in H. apply orb_true_iff in H as [H|H].
  - apply prefix_contains, prefix_rstrip; assumption.
  - specialize (IH H). cbn [Py.rstrip].
    destruct (Py.rstrip r) as [|c' r'] eqn:Er.
    + destruct p; [congruence|discriminate].
    + change (String.prefix p (String c (String c' r')) || Py.contains p (String c' r') = true).
      rewrite IH. apply orb_true_r.
Qed.

Lemma contains_strip : forall p s,
  p <> EmptyString ->
  (forall a p', p = String a p' -> Py.is_space a = false) ->
  (forall q a, p = (q ++ String a EmptyString)%string -> Py.is_space a = false) ->
  Py.contains p s = true -> Py.contains p (Py.strip s) = true.
Proof.
  intros p s Hne Hfirst Hlast H. unfold Py.strip.
  apply contains_rstrip; [exact Hne|exact Hlast|].
  apply contains_lstrip; assumption.
Qed.

Lemma no_in_lower_declined : forall msg,
  Py.contains "no" (Py.lower msg) = true -> declined msg = true.
Proof.
  intros msg H. unfold declined, Py.any_in.
  assert (Hs : Py.contains "no" (Py.strip (Py.lower msg)) = true).
  { apply contains_strip; [discriminate| | |exact H].
    - intros a p' E; injection E as <- _; reflexivity.
    - intros q a E. destruct q as [|b [|b' q]]; simpl in E; injection E.
      + intros E' _; discriminate E'.
      + intros <- _; reflexivity.
      + intros E' _; destruct q; discriminate E'. }
  cbn [existsb decline_keywords]. rewrite Hs. reflexivity.
Qed.

Lemma should_submit_brief_dict : forall d old_phase new_phase msg,
  should_submit_brief (JObj d) old_phase new_phase msg
  = Some (if String.eqb old_phase "phase2"
             && (String.eqb new_phase "phase3" || String.eqb new_phase "phase2" && declined msg)
          then has_email d && has_project d else false).
Proof.
  intros d old_phase new_phase msg. unfold should_submit_brief.
  destruct (String.eqb old_phase "phase2"), (String.eqb new_phase "phase3"),
    (String.eqb new_phase "phase2"), (declined msg); reflexivity.
Qed.

Definition lead_email_project : json :=
  JObj [field "workEmail" (jstr "lead@acme.com"); field "projectType" (jstr "Customer Support Chatbot")].

Definition lead_project_only : json :=
  JObj [field "workEmail" JNull; field "projectType" (jstr "Customer Support Chatbot")].

(** C3: on a LeadRecord dict, [should_submit_brief] returns
    hasEmail && hasProjectInfo exactly on a phase2 -> phase3 turn or on a
    phase2 -> phase2 turn whose message contains a decline keyword, and
    false otherwise; a string field counts when it is non-empty and a null
    one does not.  Examples: 2 -> 3 with email and project type gives true;
    2 -> 2 with "not now" gives true; the same decline without an email
    gives false. *)
Theorem should_submit_brief_policy_b : forall d old_phase new_phase msg,
  should_submit_brief (JObj d) old_phase new_phase msg
  = Some (if String.eqb old_phase "phase2"
             && (String.eqb new_phase "phase3" || String.eqb new_phase "phase2" && declined msg)
          then has_email d && has_project d else false)
  /\ (forall s, Json.truthy (JStr s) = true <-> s <> [])
  /\ Json.truthy JNull = false
  /\ should_submit_brief lead_email_project "phase2" "phase3" "yes" = Some true
  /\ should_submit_brief lead_email_project "phase2" "phase2" "not now" = Some true
  /\ should_submit_brief lead_project_only "phase2" "phase2" "not now" = Some false.
Proof.
  intros d old_phase new_phase msg.
  split; [apply should_submit_brief_dict|].
  split; [|repeat split; reflexivity].
  intros [|z s]; simpl; split; congruence.
Qed.

(** C10: on a phase2 -> phase2 turn, a message whose lowercase form
    contains "no" anywhere, for instance inside "know" or "nothing", counts
    as a decline, so a record with a truthy workEmail and a truthy
    projectType or goal gives [should_submit_brief = true]. *)
Theorem decline_substring_submits : forall d msg,
  has_email d = true -> has_project d = true ->
  Py.contains "no" (Py.lower msg) = true ->
  should_submit_brief (JObj d) "phase2" "phase2" msg = Some true.
Proof.
  intros d msg He Hp Hno.
  rewrite should_submit_brief_dict, (no_in_lower_declined msg Hno), He, Hp.
  reflexivity.
Qed.

Lemma decline_substring_submits_witness :
  let d := [field "workEmail" (jstr "lead@acme.com"); field "goal" (jstr "Automate support")] in
  has_email d = true /\ has_project d = true
  /\ Py.contains "no" (Py.lower "I know exactly what I want") = true
  /\ should_submit_brief (JObj d) "phase2" "phase2" "I know exactly what I want" = Some true.
Proof.
  intros d.
  assert (He : has_email d = true) by reflexivity.
  assert (Hp : has_project d = true) by reflexivity.
  assert (Hn : Py.contains "no" (Py.lower "I know exactly what I want") = true) by reflexivity.
  split; [exact He|]. split; [exact Hp|]. split; [exact Hn|].
  exact (decline_substring_submits d "I know exactly what I want" He Hp Hn).
Defined.

Definition lead_na_email : json :=
  JObj [field "workEmail" (jstr "N/A"); field "projectType" (jstr "Chatbot")].

(** C8 (refuted as stated): a LeadRecord whose workEmail is the sentinel
    "N/A" has hasEmail = true, and with a project type the gate returns
    true on a phase2 -> phase3 turn. *)
Lemma sentinel_email_counts :
  has_email [field "workEmail" (jstr "N/A"); field "projectType" (jstr "Chatbot")] = true
  /\ should_submit_brief lead_na_email "phase2" "phase3" "yes" = Some true.
Proof. split; reflexivity. Qed.

(** C8 (amended): the field predicates of [should_submit_brief] are
    Python truthiness of the dict values, so every non-empty string,
    sentinels "N/A", "none" and "null" included, counts as present; only
    [clean] in [submit_brief] maps the sentinels (any case) to "N/A". *)
Theorem field_predicates_truthiness : forall d,
  has_email d = Json.truthy_opt (Json.dict_get d "workEmail")
  /\ has_project d = Json.truthy_opt (Json.dict_get d "projectType")
                     || Json.truthy_opt (Json.dict_get d "goal")
  /\ (forall s, Json.truthy (JStr (Json.zs_of_string s)) = negb (String.eqb s ""))
  /\ has_email [field "workEmail" (jstr "N/A")] = true
  /\ has_email [field "workEmail" (jstr "none")] = true
  /\ (forall n, clean "N/A" n = "N/A" /\ clean "none" n = "N/A" /\ clean "NONE" n = "N/A"
                /\ clean "Null" n = "N/A").
Proof.
  intros d. split; [reflexivity|]. split; [reflexivity|].
  split; [intros [|c s]; reflexivity|].
  split; [reflexivity|]. split; [reflexivity|].
  intros n; repeat split.
Qed.

(** ** The handler *)

Lemma bind_inr : forall A B (m : M A) (k : A -> M B) log r log',
  bind m k log = (inr r, log') -> exists a l, m log = (inr a, l) /\ k a l = (inr r, log').
Proof.
  intros A B m k log r log'. unfold bind.
  destruct (m log) as [[e|a] l]; [discriminate|]. intros H; exists a, l; split; [reflexivity|exact H].
Qed.

Lemma chat_http200 : forall env req log r log',
  chat env req log = (Http200 r, log') -> chat_body env req log = (inr r, log').
Proof.
  intros env req log r log'. unfold chat.
  destruct (chat_body env req log) as [[e|a] l]; congruence.
Qed.

Lemma extract_data_with_ai_result : forall env hist log,
  fst (extract_data_with_ai env hist log)
  = inr (match google_api_key env with
         | None | Some EmptyString => all_null_record
         | Some _ =>
             match gateway env (extraction_call hist) with
             | GwRaise _ | GwReturn None => all_null_record
             | GwReturn (Some t) =>
                 match Json.loads (json_depth env) (strip_fences t) with
                 | Some v => v
                 | None => all_null_record
                 end
             end
         end).
Proof.
  intros env hist log.
  unfold extract_data_with_ai, catch, bind, get_gemini_client, generate, require_text, ret, raise.
  destruct (google_api_key env) as [[|a k]|]; [reflexivity| |reflexivity].
  destruct (gateway env (extraction_call hist)) as [e|[t|]]; [reflexivity| |reflexivity].
  destruct (Json.loads (json_depth env) (strip_fences t)); reflexivity.
Qed.

Lemma extract_log : forall env hist log,
  snd (extract_data_with_ai env hist log)
  = if env_set (google_api_key env) then (log ++ [extraction_call hist])%list else log.
Proof.
  intros env hist log.
  unfold extract_data_with_ai, catch, bind, get_gemini_client, generate, require_text, ret,
    raise, env_set.
  destruct (google_api_key env) as [[|a k]|]; [reflexivity| |reflexivity].
  destruct (gateway env (extraction_call hist)) as [e|[t|]]; [reflexivity| |reflexivity].
  destruct (Json.loads (json_depth env) (strip_fences t)); reflexivity.
Qed.

Lemma chat_unfold : forall env req log h,
  conversation_history req = Some h ->
  chat env req log =
  (let p0 := request_phase req in
   let new := detect_phase_transition (message req) h p0 in
   let c1 := chat_call h (message req) new in
   let cid := request_conversation_id env req in
   if negb (env_set (google_api_key env)) then (HttpError 500 "GOOGLE_API_KEY not found", log)
   else match gateway env c1 with
        | GwRaise e => (HttpError 500 e, (log ++ [c1])%list)
        | GwReturn None =>
            if extraction_gate p0 new
            then (HttpError 500 (validation_detail env "Message" "content"), (log ++ [c1])%list)
            else (HttpError 500 (validation_detail env "ChatResponse" "response"), (log ++ [c1])%list)
        | GwReturn (Some text) =>
            if extraction_gate p0 new then
              match extract_data_with_ai env
                      (h ++ [mkMessage "user" (message req); mkMessage "assistant" text])%list
                      (log ++ [c1])%list with
              | (inl e, l) => (HttpError 500 e, l)
              | (inr d, l) =>
                  match should_submit_brief d p0 new (message req) with
                  | Some b => (Http200 (mkChatResponse text cid (now_iso env) new (Some d) b), l)
                  | None => (HttpError 500 ("'" ++ Json.type_name d
                                            ++ "' object has no attribute 'get'"), l)
                  end
              end
            else (Http200 (mkChatResponse text cid (now_iso env) new None false), (log ++ [c1])%list)
        end).
Proof.
  intros env req log h Hh. unfold chat, chat_body, extraction_gate.
  rewrite Hh. fold (request_phase req). fold (request_conversation_id env req).
  cbv zeta.
  set (p0 := request_phase req). set (new := detect_phase_transition (message req) h p0).
  assert (Hcur : (if String.eqb new p0 then p0 else new) = new)
    by (destruct (String.eqb_spec new p0); congruence).
  rewrite !Hcur. fold (chat_call h (message req) new).
  unfold get_gemini_client, env_set.
  destruct (google_api_key env) as [[|a k]|]; [reflexivity| |reflexivity].
  cbn [negb]. unfold bind at 1, ret at 1. unfold bind at 1, generate.
  destruct (gateway env (chat_call h (message req) new)) as [e|[text|]];
    [reflexivity| |destruct (_ || _); reflexivity].
  destruct (String.eqb new "phase2" || String.eqb new "phase3").
  - unfold bind, require_field, ret.
    destruct (extract_data_with_ai env _ _) as [[e|d] l]; [reflexivity|].
    destruct (should_submit_brief d p0 new (message req)); reflexivity.
  - unfold bind, require_field, ret. reflexivity.
Qed.

(** C9: when the Gemini call of [chat] raises, the handler answers with
    HTTP 500 carrying the error text, returns no reply, and has made exactly
    one gateway call: the failing one, not retried. *)
Theorem chat_upstream_failure : forall env req log h k e,
  conversation_history req = Some h ->
  google_api_key env = Some k -> k <> EmptyString ->
  (forall c, call_model c = CHAT_MODEL -> gateway env c = GwRaise e) ->
  exists c, call_model c = CHAT_MODEL /\ chat env req log = (HttpError 500 e, (log ++ [c])%list).
Proof.
  intros env req log h k e Hh Hk Hne Hfail.
  eexists; split; cycle 1.
  - unfold chat, chat_body, bind, get_gemini_client, generate.
    rewrite Hh, Hk. destruct k as [|a k]; [congruence|].
    rewrite Hfail by reflexivity. reflexivity.
  - reflexivity.
Qed.

Lemma chat_upstream_failure_witness :
  let env := test_env (GwReturn None) (GwRaise "503 UNAVAILABLE") in
  let req := mkChatRequest "hello" (Some []) None None in
  exists c, call_model c = CHAT_MODEL /\ chat env req [] = (HttpError 500 "503 UNAVAILABLE", [c]).
Proof.
  intros env req.
  apply (chat_upstream_failure env req [] [] "test-key" "503 UNAVAILABLE").
  - reflexivity.
  - reflexivity.
  - discriminate.
  - intros c Hc. unfold env, test_env, gateway, is_extraction_call. rewrite Hc. reflexivity.
Defined.


(** C7 (code defect): a reply of the extraction call that parses as JSON
    is returned as parsed, whatever its shape; when it is not a dict (a
    list, a string, a number, [null], ...), [should_submit_brief] calls
    [.get] on it and the chat turn that extracted it fails with HTTP 500,
    after both gateway calls. *)
Theorem extraction_non_dict_aborts_turn : forall env req log h reply t v,
  conversation_history req = Some h ->
  env_set (google_api_key env) = true ->
  let new := detect_phase_transition (message req) h (request_phase req) in
  let th := (h ++ [mkMessage "user" (message req); mkMessage "assistant" reply])%list in
  gateway env (chat_call h (message req) new) = GwReturn (Some reply) ->
  extraction_gate (request_phase req) new = true ->
  gateway env (extraction_call th) = GwReturn (Some t) ->
  Json.loads (json_depth env) (strip_fences t) = Some v ->
  (forall d, v <> JObj d) ->
  fst (extract_data_with_ai env th []) = inr v
  /\ chat env req log
     = (HttpError 500 ("'" ++ Json.type_name v ++ "' object has no attribute 'get'"),
        (log ++ [chat_call h (message req) new; extraction_call th])%list).
Proof.
  intros env req log h reply t v Hh Hk new th Hc Hg He Hl Hv.
  assert (Hx : forall l, fst (extract_data_with_ai env th l) = inr v).
  { intros l. rewrite extract_data_with_ai_result. unfold env_set in Hk.
    destruct (google_api_key env) as [[|a k]|]; try discriminate Hk.
    rewrite He, Hl. reflexivity. }
  split; [apply Hx|].
  rewrite (chat_unfold env req log h Hh). cbv zeta. fold new. fold th.
  rewrite Hk, Hc, Hg. cbn [negb].
  rewrite (surjective_pairing (extract_data_with_ai env th _)), Hx, extract_log, Hk.
  destruct v as [| | | | | | | |d]; try (exfalso; apply (Hv d); reflexivity);
    cbn [should_submit_brief]; rewrite <- app_assoc; reflexivity.
Qed.

Lemma extraction_non_dict_aborts_turn_witness :
  let req := mkChatRequest "We need a bot" (Some []) None (Some "phase2") in
  let th := [mkMessage "user" "We need a bot"; mkMessage "assistant" "Sounds great!"] in
  fst (extract_data_with_ai env_list_reply th []) = inr (JArr [])
  /\ chat env_list_reply req []
     = (HttpError 500 "'list' object has no attribute 'get'",
        [chat_call [] "We need a bot" (detect_phase_transition "We need a bot" [] "phase2");
         extraction_call th]).
Proof.
  intros req th.
  apply (extraction_non_dict_aborts_turn env_list_reply req [] [] "Sounds great!" "[]" (JArr [])).
  - reflexivity.
  - reflexivity.
  - vm_compute. reflexivity.
  - vm_compute. reflexivity.
  - vm_compute. reflexivity.
  - vm_compute. reflexivity.
  - intros d H. discriminate H.
Defined.


Definition env_lead : Env :=
  test_env (GwReturn (Some (json_text lead_pairs))) (GwReturn (Some "Sure, happy to explain.")).

(** C2 (refuted as stated): no turn-count gate exists.  The record with
    email, goal, name and company meets Policy A at turn 6, yet the phase2
    turn 6 "tell me more" returns [should_submit_brief = false]; Policy A
    fails at turn 4, yet the phase2 turn 4 "not now" returns true. *)
Lemma policy_a_absent :
  spec_policy_a_ready lead_dict 6 = true
  /\ (match fst (chat env_lead (mkChatRequest "tell me more" (Some history5) None (Some "phase2")) []) with
      | Http200 r => resp_extracted_data r = Some (JObj lead_dict) /\ resp_should_submit_brief r = false
      | HttpError _ _ => False
      end)
  /\ spec_policy_a_ready lead_dict 4 = false
  /\ (match fst (chat env_lead (mkChatRequest "not now" (Some history3) None (Some "phase2")) []) with
      | Http200 r => resp_extracted_data r = Some (JObj lead_dict) /\ resp_should_submit_brief r = true
      | HttpError _ _ => False
      end).
Proof. vm_compute. repeat split. Qed.

(** C2 (amended): only the transition-triggered policy exists.  On a turn
    that starts and stays in phase2 and succeeds, the returned record is a
    dict [d] and the readiness flag is
    [declined msg && has_email d && has_project d]: name, company, timeline
    and the turn count play no part. *)
Theorem chat_phase2_readiness : forall env req log r log' h,
  conversation_history req = Some h ->
  conversation_phase req = Some "phase2" ->
  detect_phase_transition (message req) h "phase2" = "phase2" ->
  chat env req log = (Http200 r, log') ->
  exists d, resp_extracted_data r = Some (JObj d)
    /\ resp_should_submit_brief r = declined (message req) && has_email d && has_project d.
Proof.
  intros env req log r log' h Hh Hp Hd Hc.
  apply chat_http200 in Hc. unfold chat_body in Hc. rewrite Hh, Hp in Hc.
  cbn beta iota zeta in Hc. rewrite Hd, String.eqb_refl in Hc. cbn [orb] in Hc.
  apply bind_inr in Hc as (u & l1 & _ & Hc).
  apply bind_inr in Hc as (resp & l2 & _ & Hc).
  apply bind_inr in Hc as (text & l3 & _ & Hc).
  apply bind_inr in Hc as (ex & l4 & _ & Hc).
  apply bind_inr in Hc as (ss & l5 & H5 & Hc).
  unfold ret in Hc. injection Hc as <- _.
  destruct ex as [| | | | | | | |d]; try discriminate H5.
  rewrite should_submit_brief_dict, String.eqb_refl in H5. cbn [andb orb] in H5.
  exists d. split; [reflexivity|]. cbn [resp_should_submit_brief].
  unfold ret in H5. injection H5 as <- _.
  destruct (declined (message req)); reflexivity.
Qed.

Lemma chat_phase2_readiness_witness :
  exists d, resp_extracted_data
              (match fst (chat env_lead (mkChatRequest "tell me more" (Some history5) None
                                           (Some "phase2")) []) with
               | Http200 r => r
               | HttpError _ _ => mkChatResponse "" "" "" "" None false
               end) = Some (JObj d)
    /\ resp_should_submit_brief
         (match fst (chat env_lead (mkChatRequest "tell me more" (Some history5) None
                                      (Some "phase2")) []) with
          | Http200 r => r
          | HttpError _ _ => mkChatResponse "" "" "" "" None false
          end) = declined "tell me more" && has_email d && has_project d.
Proof.
  destruct (chat env_lead (mkChatRequest "tell me more" (Some history5) None (Some "phase2")) [])
    as [res log'] eqn:E.
  destruct res as [r|status detail]; [|vm_compute in E; discriminate E].
  apply (chat_phase2_readiness env_lead
           (mkChatRequest "tell me more" (Some history5) None (Some "phase2")) [] r log' history5).
  - reflexivity.
  - reflexivity.
  - vm_compute; reflexivity.
  - exact E.
Defined.

(** C4 (code defect): the extraction gate [current_phase == "phase2" or
    new_phase == "phase3"] also holds on a turn that starts and stays in
    phase3, so the extractor is called and its record returned although
    the turn is no transition into phase3. *)
Theorem chat_phase3_stay_runs_extraction :
  detect_phase_transition "thanks!" [] "phase3" = "phase3"
  /\ extraction_gate "phase3" "phase3" = true
  /\ existsb is_extraction_call
       (snd (chat env_lead (mkChatRequest "thanks!" (Some []) None (Some "phase3")) [])) = true
  /\ (match fst (chat env_lead (mkChatRequest "thanks!" (Some []) None (Some "phase3")) []) with
      | Http200 r => resp_conversation_phase r = "phase3"
                     /\ resp_extracted_data r = Some (JObj lead_dict)
      | HttpError _ _ => False
      end).
Proof. vm_compute. repeat split. Qed.

(* ------------------------------------------------------------------ *)
(** * Further properties of the code *)

(** ** Text lemmas *)

Lemma str_length_app : forall s1 s2, String.length (s1 ++ s2) = String.length s1 + String.length s2.
Proof. induction s1; intros; simpl; auto. Qed.

Lemma str_app_assoc : forall s1 s2 s3, ((s1 ++ s2) ++ s3)%string = (s1 ++ (s2 ++ s3))%string.
Proof. induction s1; intros; simpl; [reflexivity | now rewrite IHs1]. Qed.

Lemma substring_full : forall s, substring 0 (String.length s) s = s.
Proof. induction s; simpl; [reflexivity | now rewrite IHs]. Qed.

Lemma substring_app_left : forall x y, substring 0 (String.length x) (x ++ y) = x.
Proof. induction x; intros; simpl; [now destruct y | now rewrite IHx]. Qed.

Lemma substring_app_right : forall x y, substring (String.length x) (String.length y) (x ++ y) = y.
Proof. induction x; intros; simpl; [apply substring_full | apply IHx]. Qed.

Lemma substring_length_le : forall s n, String.length (substring 0 n s) <= n.
Proof.
  induction s; intros [|n]; simpl; try lia.
  specialize (IHs n); lia.
Qed.

Lemma prefix_app : forall p x, String.prefix p (p ++ x) = true.
Proof.
  induction p; intros; simpl; [now destruct x|].
  destruct (ascii_dec a a); [apply IHp | congruence].
Qed.

Lemma prefix_app_l : forall p q s, String.prefix (p ++ q) s = true -> String.prefix p s = true.
Proof.
  induction p; intros q s H; [now destruct s|].
  destruct s; simpl in *; [discriminate|].
  destruct (ascii_dec a a0); [eapply IHp; eauto | discriminate].
Qed.

(** A single character [c] in a text. *)
Lemma contains_char_cons : forall c d r,
  Py.contains (String c EmptyString) (String d r)
  = Ascii.eqb c d || Py.contains (String c EmptyString) r.
Proof.
  intros c d r. change (String.prefix (String c EmptyString) (String d r)
                       || Py.contains (String c EmptyString) r
                       = Ascii.eqb c d || Py.contains (String c EmptyString) r).
  assert (Hp : String.prefix EmptyString r = true) by (destruct r; reflexivity).
  cbn [String.prefix]. destruct (ascii_dec c d) as [->|Hne].
  - now rewrite Ascii.eqb_refl, Hp.
  - apply Ascii.eqb_neq in Hne. now rewrite Hne.
Qed.

Lemma contains_char_empty : forall c, Py.contains (String c EmptyString) EmptyString = false.
Proof. reflexivity. Qed.

Lemma contains_char_app : forall c s1 s2,
  Py.contains (String c EmptyString) (s1 ++ s2)
  = Py.contains (String c EmptyString) s1 || Py.contains (String c EmptyString) s2.
Proof.
  induction s1; intros; simpl (_ ++ _).
  - reflexivity.
  - rewrite !contains_char_cons, IHs1. apply orb_assoc.
Qed.

Lemma contains_char_substring : forall c s n m,
  Py.contains (String c EmptyString) s = false ->
  Py.contains (String c EmptyString) (substring n m s) = false.
Proof.
  induction s as [|a s IH]; intros n m H; [destruct n, m; reflexivity|].
  rewrite contains_char_cons in H. apply orb_false_iff in H as [H1 H2].
  destruct n as [|n]; [destruct m as [|m]|]; simpl substring.
  - reflexivity.
  - rewrite contains_char_cons, H1. simpl. auto.
  - auto.
Qed.

Lemma html_escape_char_free : forall c s,
  (c = "<"%char \/ c = ">"%char) ->
  Py.contains (String c EmptyString) (html_escape s) = false.
Proof.
  intros c s Hc. induction s as [|d r IH]; [reflexivity|].
  simpl html_escape. rewrite contains_char_app, IH, orb_false_r.
  destruct (nat_of_ascii d =? 38) eqn:E1; [destruct Hc as [-> | ->]; reflexivity|].
  destruct (nat_of_ascii d =? 60) eqn:E2; [destruct Hc as [-> | ->]; reflexivity|].
  destruct (nat_of_ascii d =? 62) eqn:E3; [destruct Hc as [-> | ->]; reflexivity|].
  rewrite contains_char_cons, contains_char_empty, orb_false_r.
  apply Ascii.eqb_neq. intros <-. destruct Hc as [-> | ->]; discriminate.
Qed.

Lemma html_escape_id : forall s,
  Py.contains "&" s = false -> Py.contains "<" s = false -> Py.contains ">" s = false ->
  html_escape s = s.
Proof.
  induction s as [|d r IH]; intros H1 H2 H3; [reflexivity|].
  rewrite contains_char_cons in H1, H2, H3.
  apply orb_false_iff in H1 as [A1 B1]; apply orb_false_iff in H2 as [A2 B2];
    apply orb_false_iff in H3 as [A3 B3].
  simpl html_escape. rewrite IH by assumption.
  destruct (nat_of_ascii d =? 38) eqn:E1.
  { apply Nat.eqb_eq in E1. exfalso. apply Ascii.eqb_neq in A1. apply A1.
    rewrite <- (ascii_nat_embedding d), E1. reflexivity. }
  destruct (nat_of_ascii d =? 60) eqn:E2.
  { apply Nat.eqb_eq in E2. exfalso. apply Ascii.eqb_neq in A2. apply A2.
    rewrite <- (ascii_nat_embedding d), E2. reflexivity. }
  destruct (nat_of_ascii d =? 62) eqn:E3.
  { apply Nat.eqb_eq in E3. exfalso. apply Ascii.eqb_neq in A3. apply A3.
    rewrite <- (ascii_nat_embedding d), E3. reflexivity. }
  reflexivity.
Qed.

(** ** [str.strip] *)

Lemma lstrip_nonspace : forall c r, Py.is_space c = false -> Py.lstrip (String c r) = String c r.
Proof. intros c r H. simpl. now rewrite H. Qed.

Lemma rstrip_cons : forall c r, Py.rstrip (String c r) =
  match Py.rstrip r with
  | EmptyString => if Py.is_space c then EmptyString else String c EmptyString
  | r' => String c r'
  end.
Proof. reflexivity. Qed.

Lemma rstrip_snoc : forall x c, Py.is_space c = false ->
  Py.rstrip (x ++ String c EmptyString) = (x ++ String c EmptyString)%string.
Proof.
  induction x as [|a x IH]; intros c H.
  - simpl. now rewrite H.
  - simpl (_ ++ _). rewrite rstrip_cons, IH by assumption.
    destruct x; reflexivity.
Qed.

Lemma lstrip_idem : forall s, Py.lstrip (Py.lstrip s) = Py.lstrip s.
Proof.
  induction s as [|c r IH]; [reflexivity|]. simpl.
  destruct (Py.is_space c) eqn:E; [exact IH | simpl; now rewrite E].
Qed.

Lemma rstrip_idem : forall s, Py.rstrip (Py.rstrip s) = Py.rstrip s.
Proof.
  induction s as [|c r IH]; [reflexivity|]. rewrite (rstrip_cons c r).
  destruct (Py.rstrip r) as [|a r'] eqn:E.
  - destruct (Py.is_space c) eqn:Ec; [reflexivity|]. simpl. now rewrite Ec.
  - rewrite (rstrip_cons c (String a r')), IH. reflexivity.
Qed.

Lemma lstrip_rstrip_lstrip : forall s, Py.lstrip (Py.rstrip (Py.lstrip s)) = Py.rstrip (Py.lstrip s).
Proof.
  intros s. assert (H : Py.lstrip s = EmptyString \/
                        exists c r, Py.lstrip s = String c r /\ Py.is_space c = false).
  { induction s as [|c r IH]; [now left|]. simpl.
    destruct (Py.is_space c) eqn:E; [exact IH | right; eauto]. }
  destruct H as [-> | (c & r & -> & Hc)]; [reflexivity|].
  rewrite rstrip_cons. destruct (Py.rstrip r); [rewrite Hc|]; apply lstrip_nonspace; exact Hc.
Qed.

Lemma strip_idem : forall s, Py.strip (Py.strip s) = Py.strip s.
Proof.
  intros s. unfold Py.strip. rewrite lstrip_rstrip_lstrip. apply rstrip_idem.
Qed.

Lemma lstrip_all_space : forall s,
  forallb Py.is_space (list_ascii_of_string s) = true -> Py.lstrip s = EmptyString.
Proof.
  induction s as [|c r IH]; intros H; [reflexivity|].
  simpl in H. apply andb_true_iff in H as [H1 H2]. simpl. rewrite H1. auto.
Qed.

Lemma lower_all_space : forall s,
  forallb Py.is_space (list_ascii_of_string s) = true -> Py.lower s = s.
Proof.
  induction s as [|c r IH]; intros H; [reflexivity|].
  simpl in H. apply andb_true_iff in H as [H1 H2]. simpl. rewrite IH by exact H2.
  f_equal. unfold Py.lower_char. unfold Py.is_space in H1.
  destruct (nat_of_ascii c) as [|n] eqn:E; [reflexivity|].
  apply orb_true_iff in H1 as [H1|H1]; [apply orb_true_iff in H1 as [H1|H1]|];
    [apply orb_true_iff in H1 as [H1|H1]| |];
    repeat match goal with
           | H : (_ && _) = true |- _ => apply andb_true_iff in H as [? ?]
           | H : (_ <=? _) = true |- _ => apply Nat.leb_le in H
           | H : (_ =? _) = true |- _ => apply Nat.eqb_eq in H
           end;
    rewrite <- E in *;
    (replace ((65 <=? nat_of_ascii c) && (nat_of_ascii c <=? 90)) with false
       by (symmetry; apply andb_false_iff;
           destruct (Nat.leb_spec 65 (nat_of_ascii c)); [right; apply Nat.leb_gt|left]; lia));
    (replace ((192 <=? nat_of_ascii c) && (nat_of_ascii c <=? 222)) with false
       by (symmetry; apply andb_false_iff;
           destruct (Nat.leb_spec 192 (nat_of_ascii c)); [right; apply Nat.leb_gt|left]; lia));
    reflexivity.
Qed.

Lemma clean_char_free : forall c t n, (c = "<"%char \/ c = ">"%char) ->
  Py.contains (String c EmptyString) (clean t n) = false.
Proof.
  intros c t n Hc. unfold clean.
  destruct (_ || _); [destruct Hc as [-> | ->]; reflexivity|].
  destruct (n <? String.length _).
  - rewrite contains_char_app, contains_char_substring by (apply html_escape_char_free; exact Hc).
    destruct Hc as [-> | ->]; reflexivity.
  - apply html_escape_char_free; exact Hc.
Qed.

Lemma clean_opt_char_free : forall c v n, (c = "<"%char \/ c = ">"%char) ->
  Py.contains (String c EmptyString) (clean_opt v n) = false.
Proof.
  intros c [t|] n Hc; [apply clean_char_free; exact Hc | destruct Hc as [-> | ->]; reflexivity].
Qed.

Lemma cps_char_free : forall c s,
  Py.contains (String c EmptyString) s = false -> existsb (Z.eqb (Json.code c)) (cps s) = false.
Proof.
  intros c s. induction s as [|d r IH]; intros H; [reflexivity|].
  rewrite contains_char_cons in H. apply orb_false_iff in H as [H1 H2].
  change (cps (String d r)) with (Json.code d :: cps r). cbn [existsb].
  rewrite (IH H2), orb_false_r. apply Z.eqb_neq. intros E.
  apply Ascii.eqb_neq in H1. apply H1. unfold Json.code in E.
  rewrite <- (ascii_nat_embedding c), <- (ascii_nat_embedding d). f_equal. lia.
Qed.

Lemma slack_text_char_free : forall c a b d e f g h i j,
  (c = "<"%char \/ c = ">"%char) ->
  Py.contains (String c EmptyString) a = false -> Py.contains (String c EmptyString) b = false ->
  Py.contains (String c EmptyString) d = false -> Py.contains (String c EmptyString) e = false ->
  Py.contains (String c EmptyString) f = false -> Py.contains (String c EmptyString) g = false ->
  Py.contains (String c EmptyString) h = false -> Py.contains (String c EmptyString) i = false ->
  Py.contains (String c EmptyString) j = false ->
  existsb (Z.eqb (Json.code c)) (slack_text a b d e f g h i j) = false.
Proof.
  intros c a b d e f g h i j Hc Ha Hb Hd He Hf Hg Hh Hi Hj. unfold slack_text.
  rewrite !existsb_app, (cps_char_free c a Ha), (cps_char_free c b Hb), (cps_char_free c d Hd),
    (cps_char_free c e He), (cps_char_free c f Hf), (cps_char_free c g Hg),
    (cps_char_free c h Hh), (cps_char_free c i Hi), (cps_char_free c j Hj).
  destruct Hc as [-> | ->]; reflexivity.
Qed.

(** X1: [clean] never returns a raw [<] or [>]: the field values of a
    brief reach Slack with every angle bracket escaped, also after
    truncation. *)
Theorem clean_escapes_angle_brackets : forall t n,
  Py.contains "<" (clean t n) = false /\ Py.contains ">" (clean t n) = false.
Proof. intros t n. split; apply clean_char_free; auto. Qed.

(** X2: the text [clean(text, max_len)] returns has at most [max_len + 3]
    characters (the cut plus the three dots). *)
Theorem clean_length_bound : forall t n, String.length (clean t n) <= n + 3.
Proof.
  intros t n. unfold clean.
  destruct (_ || _); [simpl; lia|].
  destruct (n <? String.length _) eqn:E.
  - rewrite str_length_app. pose proof (substring_length_le (html_escape (Py.strip t)) n).
    simpl (String.length "..."). lia.
  - apply Nat.ltb_ge in E. lia.
Qed.

(** X3: a non-empty text made only of whitespace is not caught by the
    placeholder test (which runs before [strip]) and comes out as the empty
    string, not as [N/A]. *)
Theorem clean_whitespace_only : forall s n,
  s <> EmptyString -> forallb Py.is_space (list_ascii_of_string s) = true ->
  clean s n = EmptyString.
Proof.
  intros s n Hne Hs. unfold clean.
  rewrite lower_all_space by exact Hs.
  assert (Hph : forall w, String.eqb s w = true -> forallb Py.is_space (list_ascii_of_string w) = true).
  { intros w Hw. apply String.eqb_eq in Hw. subst w. exact Hs. }
  destruct (String.eqb s "") eqn:E0; [apply String.eqb_eq in E0; contradiction|].
  destruct (String.eqb s "n/a") eqn:E1; [apply Hph in E1; discriminate E1|].
  destruct (String.eqb s "null") eqn:E2; [apply Hph in E2; discriminate E2|].
  destruct (String.eqb s "none") eqn:E3; [apply Hph in E3; discriminate E3|].
  cbn [existsb orb]. rewrite E1, E2, E3. cbn [orb].
  unfold Py.strip. rewrite lstrip_all_space by exact Hs. simpl.
  destruct n; reflexivity.
Qed.

(** X4: a text that is not empty, is no placeholder ([n/a], [null], [none]
    in any case), has no surrounding whitespace, no [&], [<] or [>], and
    fits in [max_len] comes out of [clean] unchanged. *)
Theorem clean_identity : forall t n,
  t <> EmptyString ->
  existsb (String.eqb (Py.lower t)) ["n/a"; "null"; "none"] = false ->
  Py.strip t = t ->
  Py.contains "&" t = false -> Py.contains "<" t = false -> Py.contains ">" t = false ->
  String.length t <= n ->
  clean t n = t.
Proof.
  intros t n Hne Hph Hs Ha Hl Hg Hn. unfold clean.
  destruct (String.eqb t "") eqn:E0; [apply String.eqb_eq in E0; contradiction|].
  rewrite Hph. cbn [orb]. rewrite Hs, html_escape_id by assumption.
  destruct (n <? String.length t) eqn:E; [apply Nat.ltb_lt in E; lia | reflexivity].
Qed.

Lemma clean_identity_witness :
  clean "Acme Ltd" 100 = "Acme Ltd".
Proof.
  apply clean_identity; try discriminate; try reflexivity; simpl; lia.
Defined.

(** X5: the health check reports [slack: false] exactly when
    [submit_brief] refuses with HTTP 500 "Slack not configured" before
    making any POST. *)
Theorem health_slack_iff_not_configured : forall env senv req,
  health_slack (health_check env senv) = false <->
  submit_brief senv req = (SubmitError 500 "Slack not configured", []).
Proof.
  intros env senv req. unfold health_check, env_set, submit_brief. cbn [health_slack].
  destruct (slack_webhook_url senv) as [[|a url]|]; split; intros H;
    try reflexivity; try discriminate H.
  destruct (slack_post _ _ _); [|destruct (_ =? 200)%Z]; discriminate H.
Qed.

(** X6: with a webhook configured, [submit_brief] makes exactly one POST,
    to that URL; it answers success (echoing the conversation id) exactly
    when Slack answers status 200, and HTTP 500 otherwise. *)
Theorem submit_brief_single_post : forall senv req url,
  slack_webhook_url senv = Some url -> url <> EmptyString ->
  exists text,
    snd (submit_brief senv req) = [(url, text)]
    /\ (fst (submit_brief senv req) = SubmitOk (brief_conversation_id req)
        <-> slack_post senv url text = PostStatus 200)
    /\ (fst (submit_brief senv req) = SubmitOk (brief_conversation_id req)
        \/ exists detail, fst (submit_brief senv req) = SubmitError 500 detail).
Proof.
  intros senv req url Hu Hne. unfold submit_brief. rewrite Hu.
  destruct url as [|a url]; [congruence|]. cbv zeta.
  match goal with
  | |- context [slack_post senv ?u ?t] => exists t; destruct (slack_post senv u t) as [e|code] eqn:E
  end.
  - split; [reflexivity|]. split; [split; intros H; discriminate H|]. right; eexists; reflexivity.
  - destruct (code =? 200)%Z eqn:Ec.
    + apply Z.eqb_eq in Ec. subst code. split; [reflexivity|]. split; [tauto|]. left; reflexivity.
    + split; [reflexivity|]. split.
      * split; [intros H; discriminate H | intros H; injection H as ->; discriminate Ec].
      * right; eexists; reflexivity.
Qed.


Lemma submit_brief_posts : forall senv req url text,
  In (url, text) (snd (submit_brief senv req)) ->
  slack_webhook_url senv = Some url /\
  text = slack_text (clean_opt (brief_get (brief_data req) "fullName") 100)
                    (clean_opt (brief_get (brief_data req) "workEmail") 100)
                    (clean_opt (brief_get (brief_data req) "company") 100)
                    (clean_opt (brief_get (brief_data req) "phone") 50)
                    (clean_opt (brief_get (brief_data req) "projectType") 100)
                    (clean_opt (brief_get (brief_data req) "timeline") 50)
                    (clean_opt (brief_get (brief_data req) "goal") 400)
                    (match iso_minutes senv (brief_timestamp req) with
                     | Some t => t
                     | None => now_minutes senv
                     end)
                    (brief_conversation_id req).
Proof.
  intros senv req url text H. unfold submit_brief in H.
  destruct (slack_webhook_url senv) as [[|a u]|] eqn:Eu; try contradiction.
  cbv zeta in H.
  destruct (slack_post _ _ _); [|destruct (_ =? 200)%Z];
    destruct H as [H|[]]; injection H as <- <-; split; reflexivity.
Qed.

Lemma existsb_eqb_not_in : forall z l, existsb (Z.eqb z) l = false -> ~ In z l.
Proof.
  intros z l H Hin. assert (existsb (Z.eqb z) l = true) by (apply existsb_exists; exists z;
    split; [exact Hin | apply Z.eqb_refl]). congruence.
Qed.

(** X7: every character the brief fields bring into the Slack message is
    escaped: when the conversation id and the formatted time hold no [<]
    or [>], the text POSTed to Slack holds no [<] (U+003C) and no [>]
    (U+003E), so no Slack control sequence such as [<!channel>] can come
    from a field of the brief. *)
Theorem submit_brief_text_escaped : forall senv req url text,
  In (url, text) (snd (submit_brief senv req)) ->
  (forall t, iso_minutes senv (brief_timestamp req) = Some t ->
             Py.contains "<" t = false /\ Py.contains ">" t = false) ->
  Py.contains "<" (now_minutes senv) = false -> Py.contains ">" (now_minutes senv) = false ->
  Py.contains "<" (brief_conversation_id req) = false ->
  Py.contains ">" (brief_conversation_id req) = false ->
  ~ In 60%Z text /\ ~ In 62%Z text.
Proof.
  intros senv req url text Hin Hiso Hn1 Hn2 Hc1 Hc2.
  apply submit_brief_posts in Hin as [_ ->].
  assert (Ht : forall c, (c = "<"%char \/ c = ">"%char) ->
                Py.contains (String c EmptyString)
                  (match iso_minutes senv (brief_timestamp req) with
                   | Some t => t | None => now_minutes senv end) = false).
  { intros c Hc. destruct (iso_minutes senv (brief_timestamp req)) as [t|] eqn:E.
    - destruct (Hiso t eq_refl). destruct Hc as [-> | ->]; assumption.
    - destruct Hc as [-> | ->]; assumption. }
  split; [change 60%Z with (Json.code "<"%char) | change 62%Z with (Json.code ">"%char)];
    apply existsb_eqb_not_in, slack_text_char_free; auto;
    try (apply clean_opt_char_free; auto); apply Ht; auto.
Qed.

(** X8: the conversation id is not escaped: the text POSTed to Slack ends
    with the conversation id of the request exactly as received. *)
Theorem submit_brief_conversation_id_raw : forall senv req url text,
  In (url, text) (snd (submit_brief senv req)) ->
  exists pre, text = (pre ++ cps (brief_conversation_id req))%list.
Proof.
  intros senv req url text Hin. apply submit_brief_posts in Hin as [_ ->].
  eexists. unfold slack_text. rewrite !app_assoc. reflexivity.
Qed.


Lemma clean_whitespace_only_witness : clean "   " 100 = EmptyString.
Proof. apply clean_whitespace_only; [discriminate | reflexivity]. Defined.

Lemma submit_brief_single_post_witness :
  exists text,
    snd (submit_brief slack_ok brief_injection) = [("https://hooks.slack.test/T0/B0", text)]
    /\ (fst (submit_brief slack_ok brief_injection) = SubmitOk (brief_conversation_id brief_injection)
        <-> slack_post slack_ok "https://hooks.slack.test/T0/B0" text = PostStatus 200)
    /\ (fst (submit_brief slack_ok brief_injection) = SubmitOk (brief_conversation_id brief_injection)
        \/ exists detail, fst (submit_brief slack_ok brief_injection) = SubmitError 500 detail).
Proof. apply submit_brief_single_post; [reflexivity | discriminate]. Defined.

Lemma submit_brief_text_escaped_witness :
  ~ In 60%Z (snd (hd (EmptyString, []) (snd (submit_brief slack_ok brief_injection))))
  /\ ~ In 62%Z (snd (hd (EmptyString, []) (snd (submit_brief slack_ok brief_injection)))).
Proof.
  apply (submit_brief_text_escaped slack_ok brief_injection "https://hooks.slack.test/T0/B0").
  - vm_compute. left. reflexivity.
  - intros t Ht. vm_compute in Ht. injection Ht as <-. split; reflexivity.
  - reflexivity.
  - reflexivity.
  - reflexivity.
  - reflexivity.
Defined.

Lemma submit_brief_conversation_id_raw_witness :
  exists pre, snd (hd (EmptyString, []) (snd (submit_brief slack_ok brief_injection)))
              = (pre ++ cps (brief_conversation_id brief_injection))%list.
Proof.
  apply (submit_brief_conversation_id_raw slack_ok brief_injection "https://hooks.slack.test/T0/B0").
  vm_compute. left. reflexivity.
Defined.

(** ** The chat handler step by step *)



Lemma extract_never_raises : forall env hist log,
  exists d, fst (extract_data_with_ai env hist log) = inr d.
Proof. intros env hist log. rewrite extract_data_with_ai_result. eexists; reflexivity. Qed.

Lemma chat_log : forall env req log res log',
  chat env req log = (res, log') ->
  ((conversation_history req = None \/ env_set (google_api_key env) = false) /\ log' = log)
  \/ exists h, conversation_history req = Some h /\ env_set (google_api_key env) = true /\
     let new := detect_phase_transition (message req) h (request_phase req) in
     (log' = (log ++ [chat_call h (message req) new])%list
      \/ exists text, gateway env (chat_call h (message req) new) = GwReturn (Some text) /\
         extraction_gate (request_phase req) new = true /\
         log' = (log ++ [chat_call h (message req) new;
                         extraction_call (h ++ [mkMessage "user" (message req);
                                                mkMessage "assistant" text])])%list).
Proof.
  intros env req log res log' H.
  destruct (conversation_history req) as [h|] eqn:Hh.
  2:{ left. split; [left; reflexivity|].
      unfold chat, chat_body in H. rewrite Hh in H. injection H as _ <-. reflexivity. }
  rewrite (chat_unfold env req log h Hh) in H. cbv zeta in H.
  destruct (env_set (google_api_key env)) eqn:Ek; cbn [negb] in H.
  2:{ left. split; [right; reflexivity|]. injection H as _ <-. reflexivity. }
  right. exists h. split; [reflexivity|]. split; [reflexivity|]. cbv zeta.
  set (new := detect_phase_transition (message req) h (request_phase req)) in *.
  destruct (gateway env _) as [e|[text|]] eqn:Egw.
  - left. injection H as _ <-. reflexivity.
  - destruct (extraction_gate (request_phase req) new) eqn:Eg.
    + right. exists text. split; [reflexivity|]. split; [reflexivity|].
      pose proof (extract_log env (h ++ [mkMessage "user" (message req);
                                         mkMessage "assistant" text])%list
                              (log ++ [chat_call h (message req) new])%list) as Hl.
      rewrite Ek in Hl.
      destruct (extract_data_with_ai env _ _) as [[e|d] l]; cbn [snd] in Hl; subst l.
      * injection H as _ <-. rewrite <- app_assoc. reflexivity.
      * destruct (should_submit_brief d _ _ _); injection H as _ <-;
          rewrite <- app_assoc; reflexivity.
    + left. injection H as _ <-. reflexivity.
  - left. destruct (extraction_gate _ _); injection H as _ <-; reflexivity.
Qed.

Lemma detect_unknown_phase : forall msg h p,
  p <> "phase1" -> p <> "phase2" -> detect_phase_transition msg h p = p.
Proof.
  intros msg h p H1 H2. unfold detect_phase_transition.
  apply String.eqb_neq in H1, H2. rewrite H1, H2. reflexivity.
Qed.

(** X9: [extract_data_with_ai] makes at most one gateway call, never
    retried: none when [GOOGLE_API_KEY] is unset or empty, otherwise exactly
    the extraction call over the given history. *)
Theorem extract_data_with_ai_calls : forall env hist log,
  snd (extract_data_with_ai env hist log)
  = if env_set (google_api_key env) then (log ++ [extraction_call hist])%list else log.
Proof. exact extract_log. Qed.

(** X10: one [chat] request makes at most two gateway calls: none when the
    history is null or the API key is unset; otherwise first the chat call,
    with the system prompt of the phase [detect_phase_transition] returns and
    the history followed by the message as contents, then, only when the
    extraction gate holds, the extraction call over the history extended
    with this exchange. *)
Theorem chat_gateway_calls : forall env req log res log',
  chat env req log = (res, log') ->
  ((conversation_history req = None \/ env_set (google_api_key env) = false) /\ log' = log)
  \/ exists h, conversation_history req = Some h /\ env_set (google_api_key env) = true /\
     let new := detect_phase_transition (message req) h (request_phase req) in
     (log' = (log ++ [chat_call h (message req) new])%list
      \/ exists text, gateway env (chat_call h (message req) new) = GwReturn (Some text) /\
         extraction_gate (request_phase req) new = true /\
         log' = (log ++ [chat_call h (message req) new;
                         extraction_call (h ++ [mkMessage "user" (message req);
                                                mkMessage "assistant" text])])%list).
Proof. exact chat_log. Qed.

(** X11: for a request with a history, the health check reports
    [google_api: false] exactly when [chat] answers HTTP 500
    "GOOGLE_API_KEY not found" without any gateway call. *)
Theorem health_google_iff_chat_no_key : forall env senv req log h,
  conversation_history req = Some h ->
  (health_google_api (health_check env senv) = false <->
   chat env req log = (HttpError 500 "GOOGLE_API_KEY not found", log)).
Proof.
  intros env senv req log h Hh. cbn [health_check health_google_api]. split.
  - intros Hk. rewrite (chat_unfold env req log h Hh). cbv zeta. rewrite Hk. reflexivity.
  - intros Hc. apply chat_log in Hc as [[[Hn|Hk] _]|(h' & Hh' & Hk & Hl)];
      [congruence | exact Hk|].
    exfalso. cbv zeta in Hl.
    destruct Hl as [Hl|(text & _ & _ & Hl)]; apply (f_equal (@length Call)) in Hl;
      rewrite length_app in Hl; simpl in Hl; lia.
Qed.

(** X12: a successful [chat] answer carries the phase
    [detect_phase_transition] returned for the request's phase, the
    request's conversation id (or ["conv_" ++ timestamp] when it is null or
    empty) and the current time; it has an extracted record exactly when the
    extraction gate holds, and without one [should_submit_brief] is false. *)
Theorem chat_response_fields : forall env req log r log' h,
  conversation_history req = Some h ->
  chat env req log = (Http200 r, log') ->
  let new := detect_phase_transition (message req) h (request_phase req) in
  resp_conversation_phase r = new
  /\ resp_conversation_id r = request_conversation_id env req
  /\ resp_timestamp r = now_iso env
  /\ (resp_extracted_data r = None <-> extraction_gate (request_phase req) new = false)
  /\ (extraction_gate (request_phase req) new = false -> resp_should_submit_brief r = false).
Proof.
  intros env req log r log' h Hh H. rewrite (chat_unfold env req log h Hh) in H.
  cbv zeta in H |- *.
  destruct (negb _); [discriminate H|].
  destruct (gateway env _) as [e|[text|]];
    [discriminate H| |destruct (extraction_gate _ _); discriminate H].
  destruct (extraction_gate _ _) eqn:Eg.
  - destruct (extract_data_with_ai env _ _) as [[e|d] l]; [discriminate H|].
    destruct (should_submit_brief _ _ _ _); [|discriminate H].
    injection H as <- _. cbn.
    repeat split; try reflexivity; try discriminate.
  - injection H as <- _. cbn. repeat split; reflexivity.
Qed.

(** X13: a [conversation_phase] that is not empty and not one of [phase1],
    [phase2], [phase3] (e.g. [Phase2]) is kept: the turn is answered with
    the phase-3 system prompt, no extraction call is made, and a successful
    answer echoes that phase with no extracted record and
    [should_submit_brief] false. *)
Theorem chat_unknown_phase : forall env req log res log' h p,
  conversation_history req = Some h ->
  conversation_phase req = Some p -> p <> EmptyString -> ~ is_phase p ->
  chat env req log = (res, log') ->
  (log' = log \/
   log' = (log ++ [mkCall CHAT_MODEL (Some PHASE_3_SYSTEM) "0.7" false
                          (chat_contents h (message req))])%list)
  /\ (forall r, res = Http200 r ->
      resp_conversation_phase r = p /\ resp_extracted_data r = None
      /\ resp_should_submit_brief r = false).
Proof.
  intros env req log res log' h p Hh Hp Hne Hph H.
  assert (Hp0 : request_phase req = p).
  { unfold request_phase. rewrite Hp. destruct p; [congruence | reflexivity]. }
  assert (H1 : p <> "phase1") by (intros ->; apply Hph; left; reflexivity).
  assert (H2 : p <> "phase2") by (intros ->; apply Hph; right; left; reflexivity).
  assert (H3 : p <> "phase3") by (intros ->; apply Hph; right; right; reflexivity).
  assert (Hd : detect_phase_transition (message req) h p = p) by (apply detect_unknown_phase; assumption).
  assert (Hg : extraction_gate p p = false).
  { unfold extraction_gate. rewrite String.eqb_refl.
    apply String.eqb_neq in H2, H3. rewrite H2, H3. reflexivity. }
  assert (Hs : system_prompt_for p = PHASE_3_SYSTEM).
  { unfold system_prompt_for. apply String.eqb_neq in H1, H2. rewrite H1, H2. reflexivity. }
  rewrite (chat_unfold env req log h Hh) in H. cbv zeta in H.
  rewrite Hp0, Hd, Hg in H. unfold chat_call in H. rewrite Hs in H.
  destruct (negb _).
  { injection H as <- <-. split; [left; reflexivity | intros r Hr; discriminate Hr]. }
  destruct (gateway env _) as [e|[text|]]; injection H as <- <-;
    (split; [right; reflexivity|]); intros r Hr; try discriminate Hr.
  injection Hr as <-. repeat split.
Qed.


(** X17: [extract_data_with_ai] never raises; it returns the all-null
    record when the API key is missing, when the gateway call raises, when
    the response text is [None], or when [json.loads] fails on the
    fence-stripped text; otherwise it returns the parsed JSON value as it
    is, whatever its shape. *)
Theorem extract_data_with_ai_fallback : forall env hist log,
  let res := fst (extract_data_with_ai env hist log) in
  (exists v, res = inr v)
  /\ ((google_api_key env = None \/ google_api_key env = Some EmptyString) -> res = inr all_null_record)
  /\ (forall e, gateway env (extraction_call hist) = GwRaise e -> res = inr all_null_record)
  /\ (gateway env (extraction_call hist) = GwReturn None -> res = inr all_null_record)
  /\ (forall t, gateway env (extraction_call hist) = GwReturn (Some t) ->
        Json.loads (json_depth env) (strip_fences t) = None -> res = inr all_null_record)
  /\ (forall k t v, google_api_key env = Some k -> k <> EmptyString ->
        gateway env (extraction_call hist) = GwReturn (Some t) ->
        Json.loads (json_depth env) (strip_fences t) = Some v -> res = inr v).
Proof.
  intros env hist log res. unfold res; rewrite extract_data_with_ai_result.
  split; [eexists; reflexivity|].
  split; [intros [-> | ->]; reflexivity|].
  split; [intros e ->; destruct (google_api_key env) as [[|]|]; reflexivity|].
  split; [intros ->; destruct (google_api_key env) as [[|]|]; reflexivity|].
  split; [intros t -> ->; destruct (google_api_key env) as [[|]|]; reflexivity|].
  intros k t v -> Hne -> ->. destruct k; [congruence|reflexivity].
Qed.

Lemma extract_data_with_ai_fallback_witness :
  let env := test_env (GwReturn (Some "```json {} ```")) (GwReturn None) in
  fst (extract_data_with_ai env [] []) = inr (JObj []).
Proof.
  intros env.
  destruct (extract_data_with_ai_fallback env [] []) as (_ & _ & _ & _ & _ & H).
  apply (H "test-key" "```json {} ```" (JObj [])).
  - reflexivity.
  - discriminate.
  - reflexivity.
  - vm_compute; reflexivity.
Defined.

(** X15: a JSON reply wrapped in a [```json ... ```] fence is parsed
    exactly as the bare reply: fence stripping gives the same text for
    both, as long as the reply does not itself start or end (after
    stripping) with three backticks. *)
Theorem strip_fences_fenced : forall t,
  Py.startswith (t ++ "```") "```" = false ->
  Py.startswith (Py.strip t) "```" = false ->
  Py.endswith (Py.strip t) "```" = false ->
  strip_fences ("```json" ++ t ++ "```") = strip_fences t
  /\ strip_fences t = Py.strip t.
Proof.
  intros t H1 H2 H3.
  assert (Hbare : strip_fences t = Py.strip t).
  { unfold strip_fences.
    assert (Hj : Py.startswith (Py.strip t) "```json" = false).
    { destruct (Py.startswith (Py.strip t) "```json") eqn:E; [|reflexivity].
      unfold Py.startswith in *. change "```json" with ("```" ++ "json")%string in E.
      apply prefix_app_l in E. congruence. }
    rewrite Hj, H2, H3. apply strip_idem. }
  split; [|exact Hbare]. rewrite Hbare. unfold strip_fences.
  assert (Hs : Py.strip ("```json" ++ t ++ "```") = ("```json" ++ t ++ "```")%string).
  { unfold Py.strip.
    assert (L : Py.lstrip ("```json" ++ t ++ "```") = ("```json" ++ t ++ "```")%string)
      by exact (lstrip_nonspace "`" ("``json" ++ t ++ "```") eq_refl).
    rewrite L.
    replace ("```json" ++ t ++ "```")%string with (("```json" ++ t ++ "``") ++ "`")%string
      by (rewrite !str_app_assoc; reflexivity).
    apply rstrip_snoc. reflexivity. }
  rewrite Hs.
  assert (Hp : Py.startswith ("```json" ++ t ++ "```") "```json" = true) by apply prefix_app.
  rewrite Hp.
  assert (Hd : Py.drop 7 ("```json" ++ t ++ "```") = (t ++ "```")%string).
  { unfold Py.drop. rewrite str_length_app.
    replace (String.length "```json" + String.length (t ++ "```") - 7)
      with (String.length (t ++ "```")) by (simpl; lia).
    apply (substring_app_right "```json"). }
  rewrite Hd, H1.
  assert (He : Py.endswith (t ++ "```") "```" = true).
  { unfold Py.endswith. rewrite str_length_app.
    replace (String.length t + String.length "```" - String.length "```") with (String.length t) by lia.
    rewrite (substring_app_right t "```"). simpl (String.length "```").
    rewrite String.eqb_refl, andb_true_r. apply Nat.leb_le. lia. }
  rewrite He. unfold Py.drop_last. rewrite str_length_app.
  replace (String.length t + String.length "```" - 3) with (String.length t) by (simpl; lia).
  rewrite substring_app_left. reflexivity.
Qed.

(** X16: [detect_phase_transition] looks at the history only through
    whether it is empty and through its last assistant message: two
    histories that agree on both are classified alike. *)
Theorem detect_depends_on_last_ai_msg : forall msg h1 h2 p,
  (h1 = [] <-> h2 = []) ->
  last_ai_msg h1 = last_ai_msg h2 ->
  detect_phase_transition msg h1 p = detect_phase_transition msg h2 p.
Proof.
  intros msg h1 h2 p Hemp Hlast. unfold detect_phase_transition. rewrite Hlast.
  replace (0 <? List.length h2) with (0 <? List.length h1); [reflexivity|].
  destruct h1 as [|m1 r1], h2 as [|m2 r2]; try reflexivity.
  - destruct Hemp as [Ha _]. specialize (Ha eq_refl). discriminate Ha.
  - destruct Hemp as [_ Hb]. specialize (Hb eq_refl). discriminate Hb.
Qed.

Lemma chat_gateway_calls_witness :
  ((conversation_history req_phase2 = None \/ env_set (google_api_key env_lead) = false)
   /\ snd (chat env_lead req_phase2 []) = [])
  \/ exists h, conversation_history req_phase2 = Some h /\ env_set (google_api_key env_lead) = true /\
     let new := detect_phase_transition (message req_phase2) h (request_phase req_phase2) in
     (snd (chat env_lead req_phase2 []) = ([] ++ [chat_call h (message req_phase2) new])%list
      \/ exists text, gateway env_lead (chat_call h (message req_phase2) new)
                        = GwReturn (Some text) /\
         extraction_gate (request_phase req_phase2) new = true /\
         snd (chat env_lead req_phase2 []) =
           ([] ++ [chat_call h (message req_phase2) new;
                   extraction_call (h ++ [mkMessage "user" (message req_phase2);
                                          mkMessage "assistant" text])])%list).
Proof.
  apply (chat_gateway_calls env_lead req_phase2 [] (fst (chat env_lead req_phase2 []))).
  vm_compute. reflexivity.
Defined.

Lemma health_google_iff_chat_no_key_witness :
  health_google_api (health_check env_no_key slack_ok) = false <->
  chat env_no_key req_phase2 [] = (HttpError 500 "GOOGLE_API_KEY not found", []).
Proof. apply (health_google_iff_chat_no_key env_no_key slack_ok req_phase2 [] history5). reflexivity. Defined.

Lemma chat_response_fields_witness :
  let r := http_response (fst (chat env_lead req_phase2 [])) in
  let new := detect_phase_transition (message req_phase2) history5 (request_phase req_phase2) in
  resp_conversation_phase r = new
  /\ resp_conversation_id r = request_conversation_id env_lead req_phase2
  /\ resp_timestamp r = now_iso env_lead
  /\ (resp_extracted_data r = None <-> extraction_gate (request_phase req_phase2) new = false)
  /\ (extraction_gate (request_phase req_phase2) new = false -> resp_should_submit_brief r = false).
Proof.
  apply (chat_response_fields env_lead req_phase2 []
           (http_response (fst (chat env_lead req_phase2 []))) (snd (chat env_lead req_phase2 []))
           history5).
  - reflexivity.
  - vm_compute. reflexivity.
Defined.

Lemma chat_unknown_phase_witness :
  let env := test_env (GwReturn (Some "{}")) (GwReturn (Some "Happy to help.")) in
  (snd (chat env req_unknown_phase []) = [] \/
   snd (chat env req_unknown_phase []) =
     ([] ++ [mkCall CHAT_MODEL (Some PHASE_3_SYSTEM) "0.7" false
                    (chat_contents history5 (message req_unknown_phase))])%list)
  /\ (forall r, fst (chat env req_unknown_phase []) = Http200 r ->
      resp_conversation_phase r = "Phase2" /\ resp_extracted_data r = None
      /\ resp_should_submit_brief r = false).
Proof.
  intros env.
  apply (chat_unknown_phase env req_unknown_phase [] (fst (chat env req_unknown_phase []))
           (snd (chat env req_unknown_phase [])) history5 "Phase2").
  - reflexivity.
  - reflexivity.
  - discriminate.
  - intros [H|[H|H]]; discriminate H.
  - vm_compute. reflexivity.
Defined.


Lemma strip_fences_fenced_witness :
  strip_fences ("```json" ++ (NL ++ "{}" ++ NL) ++ "```") = strip_fences (NL ++ "{}" ++ NL)
  /\ strip_fences (NL ++ "{}" ++ NL) = Py.strip (NL ++ "{}" ++ NL).
Proof. apply strip_fences_fenced; vm_compute; reflexivity. Defined.

Lemma detect_depends_on_last_ai_msg_witness :
  detect_phase_transition "yes please" history5 "phase2"
  = detect_phase_transition "yes please" [mkMessage "assistant" (last_ai_msg history5)] "phase2".
Proof.
  apply detect_depends_on_last_ai_msg.
  - split; intros H; discriminate H.
  - vm_compute. reflexivity.
Defined.
